(** * Book Connect (scripts.js): filter, pagination, detail lookup and theme

    A shallow embedding of [scripts.js] and the properties its specification
    states about it.  Every handler of the script is a function on an explicit
    program state: the two module-level variables [page] and [matches] plus
    the part of the document the script reads and writes.

    Conventions of the embedding:
    - A JavaScript string is the [string] of its code units.  The two
      string methods whose result depends on the engine's Unicode tables,
      [toLowerCase] and [trim], come in two forms: as the fields of an
      [Engine], about which nothing is assumed, and as the functions
      [toLowerCase] and [trim], which are those methods on ASCII text
      (A-Z go to a-z; TAB, LF, VT, FF, CR and SPACE are stripped).
    - JavaScript numbers that the script uses are array lengths, the page
      counter and the page size; they are integers and are modelled by [Z].
    - A plain object with string values is the list of its own properties
      in the order [Object.entries] enumerates them; a property that is
      absent reads as [None] (JavaScript's [undefined]).
    - A handler that can raise returns a [Completion]. *)

From Stdlib Require Import Ascii.
From stdpp Require Import base option list numbers strings pretty.

Local Open Scope Z_scope.

(** ** The JavaScript runtime the script relies on *)

(** *** Completions: normal return or a thrown exception *)

Inductive JSError : Type :=
  | TypeError.

Inductive Completion (A : Type) : Type :=
  | Normal (a : A)
  | Throw (e : JSError).

Arguments Normal {A} a.
Arguments Throw {A} e.

#[global] Instance Completion_ret : MRet Completion := fun A a => Normal a.

#[global] Instance Completion_bind : MBind Completion := fun A B k c =>
  match c with
  | Normal a => k a
  | Throw e => Throw e
  end.

(** *** Strings *)

Definition dquote : string := String (Ascii.ascii_of_nat 34) EmptyString.

Definition newline : string := String (Ascii.ascii_of_nat 10) EmptyString.

Definition Ascii_toLowerCase (c : ascii) : ascii :=
  let n := Ascii.N_of_ascii c in
  if ((65 <=? n) && (n <=? 90))%N then Ascii.ascii_of_N (n + 32) else c.

(** [String.prototype.toLowerCase] *)
Fixpoint toLowerCase (s : string) : string :=
  match s with
  | EmptyString => EmptyString
  | String c r => String (Ascii_toLowerCase c) (toLowerCase r)
  end.

Fixpoint trimStart (s : string) : string :=
  match s with
  | EmptyString => EmptyString
  | String c r => if Ascii.is_space c then trimStart r else s
  end.

Fixpoint trimEnd (s : string) : string :=
  match s with
  | EmptyString => EmptyString
  | String c r =>
      match trimEnd r with
      | EmptyString => if Ascii.is_space c then EmptyString else String c EmptyString
      | t => String c t
      end
  end.

(** [String.prototype.trim] *)
Definition trim (s : string) : string := trimEnd (trimStart s).

(** [String.prototype.includes]: [search] occurs in [s] at some position. *)
Fixpoint includes (s search : string) : bool :=
  String.prefix search s ||
  match s with
  | EmptyString => false
  | String _ r => includes r search
  end.

(** Template-literal interpolation of a value that may be [undefined]. *)
Definition ToString (v : option string) : string :=
  match v with
  | Some x => x
  | None => "undefined"
  end.

(** [v === s] for a property value [v] and a string [s]. *)
Definition strict_equals (v : option string) (s : string) : bool :=
  match v with
  | Some x => String.eqb x s
  | None => false
  end.

(** Truthiness of a value that is a string or [undefined]. *)
Definition truthy (v : option string) : bool :=
  match v with
  | Some x => negb (String.eqb x EmptyString)
  | None => false
  end.

(** Calling a string method on a value: [undefined.trim()] is a TypeError. *)
Definition RequireObjectCoercible (v : option string) : Completion string :=
  match v with
  | Some x => Normal x
  | None => Throw TypeError
  end.

(** *** Plain objects *)

Definition JSObject : Type := list (string * string).

(** [o[k]] *)
Fixpoint obj_get (o : JSObject) (k : string) : option string :=
  match o with
  | [] => None
  | (k', v) :: r => if String.eqb k' k then Some v else obj_get r k
  end.

(** [o[k] = v]: an existing property keeps its place, a new one goes last. *)
Fixpoint obj_set (o : JSObject) (k v : string) : JSObject :=
  match o with
  | [] => [(k, v)]
  | (k', v') :: r =>
      if String.eqb k' k then (k, v) :: r else (k', v') :: obj_set r k v
  end.

Definition Object_entries (o : JSObject) : list (string * string) := o.

Definition Object_fromEntries (entries : list (string * string)) : JSObject :=
  fold_left (fun o kv => obj_set o kv.1 kv.2) entries [].

(** *** Arrays *)

Definition Array_length {A} (l : list A) : Z := Z.of_nat (length l).

(** [Array.prototype.slice(start, end)] for integer arguments: a negative
    index counts from the end, and both are clamped to the array. *)
Definition Array_slice {A} (l : list A) (start end_ : Z) : list A :=
  let len := Array_length l in
  let k := if start <? 0 then Z.max (len + start) 0 else Z.min start len in
  let final := if end_ <? 0 then Z.max (len + end_) 0 else Z.min end_ len in
  take (Z.to_nat (Z.max (final - k) 0)) (drop (Z.to_nat k) l).

(** [Array.prototype.filter] with a callback that may throw: the callback
    runs on every element in order and the first exception aborts the call. *)
Fixpoint Array_filter {A} (cb : A -> Completion bool) (l : list A)
  : Completion (list A) :=
  match l with
  | [] => mret []
  | x :: r =>
      keep ← cb x;
      rest ← Array_filter cb r;
      mret (if keep : bool then x :: rest else rest)
  end.

(** [Array.prototype.find] *)
Fixpoint Array_find {A} (cb : A -> bool) (l : list A) : option A :=
  match l with
  | [] => None
  | x :: r => if cb x then Some x else Array_find cb r
  end.

(** [Array.prototype.includes] on an array of strings. *)
Definition Array_includes (l : list string) (v : option string) : bool :=
  match v with
  | Some x => existsb (String.eqb x) l
  | None => false
  end.

Definition Math_max (a b : Z) : Z := Z.max a b.

(** ** The data the script works on *)

(** A book record of [data.js]. *)
Module Book.
Record t : Type := mk {
  id : string;
  title : string;
  author : string;
  image : string;
  description : string;
  published : string;
  genres : list string;
}.
End Book.

(** What the script imports from [data.js]. *)
Record Data : Type := {
  books : list Book.t;
  authors : JSObject;
  genres : JSObject;
  BOOKS_PER_PAGE : Z;
}.

(** What the script asks of the browser: [window.matchMedia], which an old
    browser may lack, answers whether a media query matches; [fullYear s]
    is [new Date(s).getFullYear()], with [None] for NaN. *)
Record Window : Type := {
  matchMedia : option (string -> bool);
  fullYear : string -> option Z;
}.

(** A detached element as [createElement] leaves it. *)
Record Element : Type := {
  tagName : string;
  attributes : JSObject;
  innerHTML : string;
}.

(** A node on an event's composed path; [dataset] is absent on the nodes
    that are not elements (the document, the window). *)
Record Node : Type := {
  dataset : option JSObject;
}.

(** The elements behind [data-list-items], [data-list-button] and
    [data-list-message]. *)
Record ListView : Type := {
  list_items : list Element;
  list_button_disabled : bool;
  list_button_innerHTML : string;
  list_message_classList : list string;
}.

(** The search overlay and its two dropdowns. *)
Record SearchView : Type := {
  search_overlay_open : bool;
  search_title_focus : bool;
  search_genres : list Element;
  search_authors : list Element;
}.

(** The settings overlay, its theme control and the two colour properties
    of the document element. *)
Record SettingsView : Type := {
  settings_overlay_open : bool;
  settings_theme_value : option string;
  color_dark : option string;
  color_light : option string;
}.

(** The detail overlay behind [data-list-active]. *)
Record DetailView : Type := {
  list_active_open : bool;
  list_blur_src : string;
  list_image_src : string;
  list_title : string;
  list_subtitle : string;
  list_description : string;
}.

Record Document : Type := {
  list_view : ListView;
  search_view : SearchView;
  settings_view : SettingsView;
  detail_view : DetailView;
  scroll_top : Z;
}.

(** The program state: the module-level [page] and [matches], and the
    document. *)
Record State : Type := {
  page : Z;
  matches : list Book.t;
  document : Document;
}.

Definition with_search_overlay (o : bool) (v : SearchView) : SearchView :=
  {| search_overlay_open := o;
     search_title_focus := search_title_focus v;
     search_genres := search_genres v;
     search_authors := search_authors v |}.

Definition with_settings_overlay (o : bool) (v : SettingsView) : SettingsView :=
  {| settings_overlay_open := o;
     settings_theme_value := settings_theme_value v;
     color_dark := color_dark v;
     color_light := color_light v |}.

Definition with_settings_theme (x : option string) (v : SettingsView) : SettingsView :=
  {| settings_overlay_open := settings_overlay_open v;
     settings_theme_value := x;
     color_dark := color_dark v;
     color_light := color_light v |}.

Definition with_list_active (o : bool) (v : DetailView) : DetailView :=
  {| list_active_open := o;
     list_blur_src := list_blur_src v;
     list_image_src := list_image_src v;
     list_title := list_title v;
     list_subtitle := list_subtitle v;
     list_description := list_description v |}.

Definition with_list_view (v : ListView) (doc : Document) : Document :=
  {| list_view := v;
     search_view := search_view doc;
     settings_view := settings_view doc;
     detail_view := detail_view doc;
     scroll_top := scroll_top doc |}.

Definition with_search_view (v : SearchView) (doc : Document) : Document :=
  {| list_view := list_view doc;
     search_view := v;
     settings_view := settings_view doc;
     detail_view := detail_view doc;
     scroll_top := scroll_top doc |}.

Definition with_settings_view (v : SettingsView) (doc : Document) : Document :=
  {| list_view := list_view doc;
     search_view := search_view doc;
     settings_view := v;
     detail_view := detail_view doc;
     scroll_top := scroll_top doc |}.

Definition with_detail_view (v : DetailView) (doc : Document) : Document :=
  {| list_view := list_view doc;
     search_view := search_view doc;
     settings_view := settings_view doc;
     detail_view := v;
     scroll_top := scroll_top doc |}.

Definition with_document (doc : Document) (s : State) : State :=
  {| page := page s; matches := matches s; document := doc |}.

(** [classList.add] and [classList.remove] *)
Definition classList_add (c : string) (l : list string) : list string :=
  if existsb (String.eqb c) l then l else l ++ [c].

Definition classList_remove (c : string) (l : list string) : list string :=
  List.filter (fun x => negb (String.eqb c x)) l.

Definition classList_contains (c : string) (l : list string) : bool :=
  existsb (String.eqb c) l.

(** ** Utility functions *)

Definition createElement (tag : string) (attrs : JSObject) (html : string)
  : Element :=
  {| tagName := tag;
     attributes :=
       fold_left (fun el kv => obj_set el kv.1 kv.2) (Object_entries attrs) [];
     innerHTML := html |}.

(** The elements are gathered in a fragment, and the fragment's children
    then go after the children the parent already has. *)
Definition appendElements (parent elements : list Element) : list Element :=
  let fragment := fold_left (fun frag element => frag ++ [element]) elements [] in
  parent ++ fragment.

(** ** UI generation *)

Definition preview_html (image title author_name : string) : string :=
  newline +:+
  "            <img class=" +:+ dquote +:+ "preview__image" +:+ dquote +:+
  " src=" +:+ dquote +:+ image +:+ dquote +:+ " />" +:+ newline +:+
  "            <div class=" +:+ dquote +:+ "preview__info" +:+ dquote +:+ ">"
  +:+ newline +:+
  "                <h3 class=" +:+ dquote +:+ "preview__title" +:+ dquote +:+ ">"
  +:+ title +:+ "</h3>" +:+ newline +:+
  "                <div class=" +:+ dquote +:+ "preview__author" +:+ dquote +:+ ">"
  +:+ author_name +:+ "</div>" +:+ newline +:+
  "            </div>" +:+ newline +:+
  "        ".

Definition createBookPreviews (bs : list Book.t) (auth : JSObject)
  : list Element :=
  map (fun b =>
         createElement "button"
           [("class", "preview"); ("data-preview", Book.id b)]
           (preview_html (Book.image b) (Book.title b)
              (ToString (obj_get auth (Book.author b)))))
      bs.

Definition createOptions (data : JSObject) (defaultOptionText : string)
  : list Element :=
  fold_left
    (fun options kv => options ++ [createElement "option" [("value", kv.1)] kv.2])
    (Object_entries data)
    [createElement "option" [("value", "any")] defaultOptionText].

(** ** Theme handling *)

Definition prefers_color_scheme_dark : string := "(prefers-color-scheme: dark)".

Definition applyTheme (w : Window) (doc : Document) : Document :=
  let prefersDarkScheme :=
    match matchMedia w with
    | Some mm => mm prefers_color_scheme_dark
    | None => false
    end in
  let theme := if prefersDarkScheme then "night" else "day" in
  let colorDark :=
    if String.eqb theme "night" then "255, 255, 255" else "10, 10, 20" in
  let colorLight :=
    if String.eqb theme "night" then "10, 10, 20" else "255, 255, 255" in
  with_settings_view
    {| settings_overlay_open := settings_overlay_open (settings_view doc);
       settings_theme_value := Some theme;
       color_dark := Some colorDark;
       color_light := Some colorLight |}
    doc.

(** ** Handlers *)

Definition list_button_html (remaining : Z) : string :=
  newline +:+
  "        <span>Show more</span>" +:+ newline +:+
  "        <span class=" +:+ dquote +:+ "list__remaining" +:+ dquote +:+ "> ("
  +:+ pretty remaining +:+ ")</span>" +:+ newline +:+
  "    ".

(** The callback [handleSearch] gives to [books.filter]. *)
Definition search_callback (filters : JSObject) (book : Book.t)
  : Completion bool :=
  let genreMatch :=
    strict_equals (obj_get filters "genre") "any" ||
    Array_includes (Book.genres book) (obj_get filters "genre") in
  title ← RequireObjectCoercible (obj_get filters "title");
  let titleMatch :=
    String.eqb (trim title) EmptyString ||
    includes (toLowerCase (Book.title book)) (toLowerCase title) in
  let authorMatch :=
    strict_equals (obj_get filters "author") "any" ||
    strict_equals (obj_get filters "author") (Book.author book) in
  mret (genreMatch && titleMatch && authorMatch).

(** What [handleSearch] does once [books.filter] has returned [matches']:
    the cursor goes back to the first page and the list, the show-more
    button and the no-results message are redrawn. *)
Definition show_matches (d : Data) (matches' : list Book.t) (s : State) : State :=
  let page' := 1 in
  let newItems :=
    createBookPreviews (Array_slice matches' 0 (BOOKS_PER_PAGE d)) (authors d) in
  let items := appendElements [] newItems in
  let message := list_message_classList (list_view (document s)) in
  let lv :=
    {| list_items := items;
       list_button_disabled := Array_length matches' <=? BOOKS_PER_PAGE d;
       list_button_innerHTML :=
         list_button_html (Math_max (Array_length matches' - BOOKS_PER_PAGE d) 0);
       list_message_classList :=
         if Array_length matches' <? 1
         then classList_add "list__message_show" message
         else classList_remove "list__message_show" message |} in
  let doc := document s in
  {| page := page';
     matches := matches';
     document :=
       {| list_view := lv;
          search_view := with_search_overlay false (search_view doc);
          settings_view := settings_view doc;
          detail_view := detail_view doc;
          scroll_top := 0 |} |}.

(** Submission of the search form; [formData] holds the entries of the
    submitted form. *)
Definition handleSearch (d : Data) (formData : list (string * string))
    (s : State) : Completion State :=
  let filters := Object_fromEntries formData in
  matches' ← Array_filter (search_callback filters) (books d);
  mret (show_matches d matches' s).

(** The string methods of the engine that the search relies on:
    [String.prototype.toLowerCase] and [String.prototype.trim]. *)
Record Engine : Type := {
  engine_toLowerCase : string -> string;
  engine_trim : string -> string;
}.

(** The engine on ASCII text. *)
Definition ascii_engine : Engine :=
  {| engine_toLowerCase := toLowerCase; engine_trim := trim |}.

(** The callback of [handleSearch], over the string methods of an engine. *)
Definition search_callback_with (e : Engine) (filters : JSObject)
    (book : Book.t) : Completion bool :=
  let genreMatch :=
    strict_equals (obj_get filters "genre") "any" ||
    Array_includes (Book.genres book) (obj_get filters "genre") in
  title ← RequireObjectCoercible (obj_get filters "title");
  let titleMatch :=
    String.eqb (engine_trim e title) EmptyString ||
    includes (engine_toLowerCase e (Book.title book))
      (engine_toLowerCase e title) in
  let authorMatch :=
    strict_equals (obj_get filters "author") "any" ||
    strict_equals (obj_get filters "author") (Book.author book) in
  mret (genreMatch && titleMatch && authorMatch).

(** [handleSearch] over the string methods of an engine; [handleSearch] is
    this handler on [ascii_engine]. *)
Definition handleSearch_with (e : Engine) (d : Data)
    (formData : list (string * string)) (s : State) : Completion State :=
  let filters := Object_fromEntries formData in
  matches' ← Array_filter (search_callback_with e filters) (books d);
  mret (show_matches d matches' s).

(** A click on the show-more button. *)
Definition handleShowMore (d : Data) (s : State) : State :=
  let start := page s * BOOKS_PER_PAGE d in
  let end_ := (page s + 1) * BOOKS_PER_PAGE d in
  let newItems :=
    createBookPreviews (Array_slice (matches s) start end_) (authors d) in
  let lv := list_view (document s) in
  {| page := page s + 1;
     matches := matches s;
     document :=
       with_list_view
         {| list_items := appendElements (list_items lv) newItems;
            list_button_disabled := Array_length (matches s) <=? end_;
            list_button_innerHTML :=
              list_button_html (Math_max (Array_length (matches s) - end_) 0);
            list_message_classList := list_message_classList lv |}
         (document s) |}.

(** [node.dataset?.preview] *)
Definition dataset_preview (node : Node) : option string :=
  ds ← dataset node; obj_get ds "preview".

(** The token of the clicked preview: the [data-preview] value of the first
    node on the path that has a non-empty one, [None] when there is none. *)
Definition active_preview (composedPath : list Node) : option string :=
  node ← Array_find (fun node => truthy (dataset_preview node)) composedPath;
  dataset_preview node.

(** [books.find(book => book.id === active)] *)
Definition find_book (d : Data) (active : option string) : option Book.t :=
  Array_find (fun book => strict_equals active (Book.id book)) (books d).

Definition year_text (y : option Z) : string :=
  match y with
  | Some n => pretty n
  | None => "NaN"
  end.

(** A click inside the list of previews. *)
Definition handleBookClick (d : Data) (w : Window) (composedPath : list Node)
    (s : State) : State :=
  let active := active_preview composedPath in
  match find_book d active with
  | Some book =>
      with_document
        (with_detail_view
           {| list_active_open := true;
              list_blur_src := Book.image book;
              list_image_src := Book.image book;
              list_title := Book.title book;
              list_subtitle :=
                ToString (obj_get (authors d) (Book.author book)) +:+ " (" +:+
                year_text (fullYear w (Book.published book)) +:+ ")";
              list_description := Book.description book |}
           (document s))
        s
  | None => s
  end.

(** Submission of the settings form. *)
Definition handleSettings (w : Window) (formData : list (string * string))
    (s : State) : State :=
  let theme := obj_get (Object_fromEntries formData) "theme" in
  let doc1 :=
    with_settings_view (with_settings_theme theme (settings_view (document s)))
      (document s) in
  let doc2 := applyTheme w doc1 in
  with_document
    (with_settings_view (with_settings_overlay false (settings_view doc2)) doc2)
    s.

(** ** Event listeners *)

(** The events [setupEventListeners] binds a listener to. *)
Inductive Event : Type :=
  | SearchCancelClick
  | SettingsCancelClick
  | HeaderSearchClick
  | HeaderSettingsClick
  | ListCloseClick
  | SettingsFormSubmit (formData : list (string * string))
  | SearchFormSubmit (formData : list (string * string))
  | ListButtonClick
  | ListItemsClick (composedPath : list Node).

(** The listener bound to each event. *)
Definition listener (d : Data) (w : Window) (ev : Event) (s : State)
  : Completion State :=
  let doc := document s in
  match ev with
  | SearchCancelClick =>
      mret (with_document
              (with_search_view (with_search_overlay false (search_view doc)) doc) s)
  | SettingsCancelClick =>
      mret (with_document
              (with_settings_view
                 (with_settings_overlay false (settings_view doc)) doc) s)
  | HeaderSearchClick =>
      mret (with_document
              (with_search_view
                 {| search_overlay_open := true;
                    search_title_focus := true;
                    search_genres := search_genres (search_view doc);
                    search_authors := search_authors (search_view doc) |} doc) s)
  | HeaderSettingsClick =>
      mret (with_document
              (with_settings_view
                 (with_settings_overlay true (settings_view doc)) doc) s)
  | ListCloseClick =>
      mret (with_document
              (with_detail_view (with_list_active false (detail_view doc)) doc) s)
  | SettingsFormSubmit formData => mret (handleSettings w formData s)
  | SearchFormSubmit formData => handleSearch d formData s
  | ListButtonClick => mret (handleShowMore d s)
  | ListItemsClick composedPath => mret (handleBookClick d w composedPath s)
  end.

(** One turn of the event loop: an exception that escapes a listener is
    reported and the state stays as the listener left it; the one listener
    that can throw, [handleSearch], throws before it writes anything. *)
Definition dispatch (d : Data) (w : Window) (s : State) (ev : Event) : State :=
  match listener d w ev s with
  | Normal s' => s'
  | Throw _ => s
  end.

Definition run (d : Data) (w : Window) (evs : list Event) (s : State) : State :=
  fold_left (dispatch d w) evs s.

(** ** Initialization *)

(** The script's top level: [page] and [matches] get their initial values
    and [initialize] runs on the document as the page's markup gives it. *)
Definition initialize (d : Data) (w : Window) (doc : Document) : State :=
  let page0 := 1 in
  let matches0 := books d in
  let initialPreviews :=
    createBookPreviews (Array_slice matches0 0 (BOOKS_PER_PAGE d)) (authors d) in
  let lv := list_view doc in
  let doc1 :=
    with_list_view
      {| list_items := appendElements (list_items lv) initialPreviews;
         list_button_disabled := list_button_disabled lv;
         list_button_innerHTML := list_button_innerHTML lv;
         list_message_classList := list_message_classList lv |} doc in
  let genreOptions := createOptions (genres d) "All Genres" in
  let sv := search_view doc1 in
  let doc2 :=
    with_search_view
      {| search_overlay_open := search_overlay_open sv;
         search_title_focus := search_title_focus sv;
         search_genres := appendElements (search_genres sv) genreOptions;
         search_authors := search_authors sv |} doc1 in
  let authorOptions := createOptions (authors d) "All Authors" in
  let sv2 := search_view doc2 in
  let doc3 :=
    with_search_view
      {| search_overlay_open := search_overlay_open sv2;
         search_title_focus := search_title_focus sv2;
         search_genres := search_genres sv2;
         search_authors := appendElements (search_authors sv2) authorOptions |}
      doc2 in
  {| page := page0; matches := matches0; document := applyTheme w doc3 |}.

(** ** Notions the specification is stated with *)

(** [t] occurs in [s] as a literal substring. *)
Definition contains (s t : string) : Prop :=
  ∃ pre suf, s = pre +:+ t +:+ suf.

(** [s] has nothing but whitespace in it. *)
Fixpoint blank (s : string) : bool :=
  match s with
  | EmptyString => true
  | String c r => Ascii.is_space c && blank r
  end.

(** [s] contains [t] up to letter case: some substring of [s] differs from
    [t] in case only. *)
Definition contains_ci (s t : string) : Prop :=
  ∃ pre mid suf, s = pre +:+ mid +:+ suf ∧ toLowerCase mid = toLowerCase t.

(** The three predicates of the filter criteria, in the specification's
    words. *)
Definition criteria_hold (title genre author : string) (b : Book.t) : Prop :=
  (genre = "any" ∨ genre ∈ Book.genres b) ∧
  (trim title = EmptyString ∨ contains_ci (Book.title b) title) ∧
  (author = "any" ∨ Book.author b = author).

(** The same three predicates as [handleSearch] computes them when the form
    has its three fields. *)
Definition criteria_test (title genre author : string) (b : Book.t) : bool :=
  (String.eqb genre "any" || existsb (String.eqb genre) (Book.genres b)) &&
  (String.eqb (trim title) EmptyString ||
   includes (toLowerCase (Book.title b)) (toLowerCase title)) &&
  (String.eqb author "any" || String.eqb author (Book.author b)).

(** The three predicates of the filter criteria over the string methods of
    an engine: the title criterion is empty after trimming, or the book's
    title contains it when both are lowercased. *)
Definition criteria_hold_with (e : Engine) (title genre author : string)
    (b : Book.t) : Prop :=
  (genre = "any" ∨ genre ∈ Book.genres b) ∧
  (engine_trim e title = EmptyString ∨
   contains (engine_toLowerCase e (Book.title b)) (engine_toLowerCase e title)) ∧
  (author = "any" ∨ Book.author b = author).

Definition criteria_test_with (e : Engine) (title genre author : string)
    (b : Book.t) : bool :=
  (String.eqb genre "any" || existsb (String.eqb genre) (Book.genres b)) &&
  (String.eqb (engine_trim e title) EmptyString ||
   includes (engine_toLowerCase e (Book.title b)) (engine_toLowerCase e title)) &&
  (String.eqb author "any" || String.eqb author (Book.author b)).

(** A name that [createElement] and [setAttribute] take as it is: a
    lower-case letter followed by lower-case letters, digits and hyphens. *)
Definition name_start (c : ascii) : bool :=
  let n := Ascii.N_of_ascii c in ((97 <=? n) && (n <=? 122))%N.

Definition name_char (c : ascii) : bool :=
  let n := Ascii.N_of_ascii c in
  (((97 <=? n) && (n <=? 122)) || ((48 <=? n) && (n <=? 57)) || (n =? 45))%N.

Definition valid_name (s : string) : bool :=
  match s with
  | EmptyString => false
  | String c r => name_start c && forallb name_char (String.list_ascii_of_string r)
  end.

(** A node that carries no preview token, or an empty one. *)
Definition no_preview (node : Node) : Prop :=
  truthy (dataset_preview node) = false.

(** An option of a dropdown: its value and its content. *)
Definition option_element (value content : string) : Element :=
  {| tagName := "option"; attributes := [("value", value)]; innerHTML := content |}.

(** The number of previews the list shows. *)
Definition rendered_count (s : State) : Z :=
  Array_length (list_items (list_view (document s))).

(** The no-results message is shown. *)
Definition is_empty (s : State) : bool :=
  classList_contains "list__message_show"
    (list_message_classList (list_view (document s))).

(** The show-more button is disabled. *)
Definition is_exhausted (s : State) : bool :=
  list_button_disabled (list_view (document s)).

(** The invariant of the page cursor. *)
Definition cursor_invariant (d : Data) (s : State) : Prop :=
  1 ≤ page s ∧
  rendered_count s = Z.min (page s * BOOKS_PER_PAGE d) (Array_length (matches s)).

(** The two themes, as the colours [applyTheme] writes. *)
Inductive Theme : Type :=
  | day
  | night.

Definition applied_theme (s : State) : option Theme :=
  let v := settings_view (document s) in
  match color_dark v, color_light v with
  | Some dark, Some light =>
      if String.eqb dark "255, 255, 255" && String.eqb light "10, 10, 20"
      then Some night
      else if String.eqb dark "10, 10, 20" && String.eqb light "255, 255, 255"
      then Some day
      else None
  | _, _ => None
  end.

(** The dark-mode preference signal of the environment, as [applyTheme]
    reads it. *)
Definition prefers_dark (w : Window) : bool :=
  match matchMedia w with
  | Some mm => mm prefers_color_scheme_dark
  | None => false
  end.

Definition Theme_name (t : Theme) : string :=
  match t with
  | day => "day"
  | night => "night"
  end.

(** The preview [createBookPreviews] makes of one book. *)
Definition preview_of (auth : JSObject) (b : Book.t) : Element :=
  createElement "button"
    [("class", "preview"); ("data-preview", Book.id b)]
    (preview_html (Book.image b) (Book.title b)
       (ToString (obj_get auth (Book.author b)))).

(** The detail overlay as [handleBookClick] fills it for a book. *)
Definition detail_of (d : Data) (w : Window) (b : Book.t) : DetailView :=
  {| list_active_open := true;
     list_blur_src := Book.image b;
     list_image_src := Book.image b;
     list_title := Book.title b;
     list_subtitle :=
       ToString (obj_get (authors d) (Book.author b)) +:+ " (" +:+
       year_text (fullYear w (Book.published b)) +:+ ")";
     list_description := Book.description b |}.

(** The theme the environment asks for. *)
Definition environment_theme (w : Window) : Theme :=
  if prefers_dark w then night else day.

(** The theme control and the two colours hold the theme of the
    environment. *)
Definition themed (w : Window) (v : SettingsView) : Prop :=
  settings_theme_value v = Some (Theme_name (environment_theme w)) ∧
  color_dark v
  = Some (if prefers_dark w then "255, 255, 255" else "10, 10, 20") ∧
  color_light v
  = Some (if prefers_dark w then "10, 10, 20" else "255, 255, 255").

(** The label of the show-more button reports [n] remaining books. *)
Definition reports_remaining (s : State) (n : Z) : Prop :=
  list_button_innerHTML (list_view (document s)) = list_button_html n.

(** The list shows the first [page] pages of the match set, and nothing
    else. *)
Definition shown_invariant (d : Data) (s : State) : Prop :=
  1 ≤ page s ∧
  list_items (list_view (document s))
  = createBookPreviews
      (take (Z.to_nat (page s * BOOKS_PER_PAGE d)) (matches s)) (authors d).

(** ** Sample data *)

Definition book (id title author : string) (genres : list string) : Book.t :=
  Book.mk id title author ("/img/" +:+ id +:+ ".jpg") ("About " +:+ title)
    "1965-08-01T00:00:00.000Z" genres.

Definition sample_books : list Book.t :=
  [ book "b1" "Dune" "a1" ["g1"];
    book "b2" "Emma" "a2" ["g2"; "g3"];
    book "b3" "Dune Messiah" "a1" ["g1"];
    book "b4" "Persuasion" "a2" ["g2"];
    book "b5" "Children of Dune" "a1" ["g1"; "g3"] ].

Definition sample_data : Data :=
  {| books := sample_books;
     authors := [("a1", "Frank Herbert"); ("a2", "Jane Austen")];
     genres := [("g1", "Science Fiction"); ("g2", "Romance"); ("g3", "Classics")];
     BOOKS_PER_PAGE := 2 |}.

(** A browser that reports a light colour scheme. *)
Definition light_window : Window :=
  {| matchMedia := Some (fun _ => false); fullYear := fun _ => Some 1965 |}.

(** A browser that reports a dark colour scheme. *)
Definition dark_window : Window :=
  {| matchMedia := Some (fun _ => true); fullYear := fun _ => Some 1965 |}.

(** A document whose list and dropdowns are still empty and whose overlays
    are closed. *)
Definition blank_document : Document :=
  {| list_view :=
       {| list_items := [];
          list_button_disabled := false;
          list_button_innerHTML := EmptyString;
          list_message_classList := ["list__message"] |};
     search_view :=
       {| search_overlay_open := false;
          search_title_focus := false;
          search_genres := [];
          search_authors := [] |};
     settings_view :=
       {| settings_overlay_open := false;
          settings_theme_value := None;
          color_dark := None;
          color_light := None |};
     detail_view :=
       {| list_active_open := false;
          list_blur_src := EmptyString;
          list_image_src := EmptyString;
          list_title := EmptyString;
          list_subtitle := EmptyString;
          list_description := EmptyString |};
     scroll_top := 0 |}.

Definition search_form (title genre author : string) : list (string * string) :=
  [("title", title); ("genre", genre); ("author", author)].

Definition sample_state : State := initialize sample_data light_window blank_document.

(** ** Facts about the runtime *)

Section Strings.

Lemma prefix_spec (p s : string) :
  String.prefix p s = true ↔ ∃ suf, s = p +:+ suf.
Proof.
  revert s. induction p as [|c p IH]; intros s.
  - destruct s; simpl; split; eauto.
  - destruct s as [|c' s]; simpl.
    + split; [discriminate | intros [suf H]; discriminate].
    + destruct (Ascii.ascii_dec c c') as [->|Hne].
      * rewrite IH. split.
        -- intros [suf ->]. eauto.
        -- intros [suf H]. simpl in H. injection H as ->. eauto.
      * split; [discriminate | intros [suf H]; injection H as ? ?; congruence].
Qed.

Lemma includes_spec (s t : string) : includes s t = true ↔ contains s t.
Proof.
  unfold contains. induction s as [|c s IH]; cbn [includes].
  - rewrite orb_false_r, prefix_spec. split.
    + intros [suf H]. exists EmptyString, suf. done.
    + intros [pre [suf H]]. destruct pre; [eauto | discriminate].
  - rewrite orb_true_iff, prefix_spec, IH. split.
    + intros [[suf H] | [pre [suf H]]].
      * exists EmptyString, suf. done.
      * exists (String c pre), suf. by rewrite H.
    + intros [pre [suf H]]. destruct pre as [|c' pre].
      * left. eauto.
      * right. injection H as -> ->. eauto.
Qed.

Lemma toLowerCase_app (a b : string) :
  toLowerCase (a +:+ b) = toLowerCase a +:+ toLowerCase b.
Proof. induction a as [|c a IH]; simpl; [done | by rewrite IH]. Qed.

Lemma toLowerCase_split (s a b : string) :
  toLowerCase s = a +:+ b →
  ∃ a' b', s = a' +:+ b' ∧ toLowerCase a' = a ∧ toLowerCase b' = b.
Proof.
  revert s. induction a as [|c a IH]; intros s H.
  - exists EmptyString, s. done.
  - destruct s as [|c' s]; [discriminate|].
    simpl in H. injection H as Hc Hs.
    destruct (IH _ Hs) as (a' & b' & -> & Ha & Hb).
    exists (String c' a'), b'. simpl. by rewrite Hc, Ha.
Qed.

(** Lowercasing both sides and looking for a literal substring is
    containment up to case. *)
Lemma includes_toLowerCase (s t : string) :
  includes (toLowerCase s) (toLowerCase t) = true ↔ contains_ci s t.
Proof.
  rewrite includes_spec. unfold contains, contains_ci. split.
  - intros (pre & suf & H).
    apply toLowerCase_split in H as (pre' & r & -> & Hpre & Hr).
    apply toLowerCase_split in Hr as (mid & suf' & -> & Hmid & Hsuf).
    eauto.
  - intros (pre & mid & suf & -> & Hmid).
    exists (toLowerCase pre), (toLowerCase suf).
    by rewrite !toLowerCase_app, Hmid.
Qed.

Lemma blank_app (a b : string) : blank (a +:+ b) = blank a && blank b.
Proof.
  induction a as [|c a IH]; [done|].
  change (String c a +:+ b) with (String c (a +:+ b)).
  cbn [blank]. by rewrite IH, andb_assoc.
Qed.

Lemma blank_trimStart (s : string) : blank (trimStart s) = blank s.
Proof.
  induction s as [|c s IH]; [done|]. cbn [trimStart blank].
  destruct (Ascii.is_space c) eqn:Hc; [done|]. cbn [blank]. by rewrite Hc.
Qed.

Lemma trimEnd_empty (s : string) : trimEnd s = EmptyString ↔ blank s = true.
Proof.
  induction s as [|c s IH]; [done|]. cbn [trimEnd blank].
  destruct (trimEnd s) as [|c' t].
  - destruct (Ascii.is_space c); cbn [andb]; [tauto|]. split; discriminate.
  - rewrite andb_true_iff, <- IH. split; [discriminate | intros [_ ?]; done].
Qed.

(** The emptiness test of the search: a criterion is empty after trimming
    exactly when it is blank. *)
Lemma trim_empty (s : string) : trim s = EmptyString ↔ blank s = true.
Proof. unfold trim. by rewrite trimEnd_empty, blank_trimStart. Qed.

(** Padding a term that is not blank gives a criterion that is not empty
    after trimming. *)
Lemma trim_padded (pad_l term pad_r : string) :
  blank term = false → trim (pad_l +:+ term +:+ pad_r) ≠ EmptyString.
Proof.
  intros Hterm. rewrite trim_empty, !blank_app, Hterm.
  by destruct (blank pad_l).
Qed.

End Strings.

Example trim_example :
  (trim "  a b  ", trim "   ", trim "x") = ("a b", EmptyString, "x").
Proof. reflexivity. Qed.

Example toLowerCase_example : toLowerCase "Dune: Part 2 [A-Z]" = "dune: part 2 [a-z]".
Proof. reflexivity. Qed.

Example includes_example :
  (includes "hello" "ell", includes "hello" EmptyString, includes EmptyString "a",
   includes "hello" "Ell")
  = (true, true, false, false).
Proof. reflexivity. Qed.

Example Array_slice_example :
  (Array_slice [1; 2; 3; 4; 5] 2 4, Array_slice [1; 2; 3; 4; 5] 4 6,
   Array_slice [1; 2; 3; 4; 5] 6 8, Array_slice [1; 2; 3; 4; 5] (-2) 10,
   Array_slice [1; 2; 3; 4; 5] 0 (-1))
  = ([3; 4], [5], [], [4; 5], [1; 2; 3; 4]).
Proof. reflexivity. Qed.

Example Object_fromEntries_example :
  Object_fromEntries [("a", "1"); ("b", "2"); ("a", "3")] = [("a", "3"); ("b", "2")].
Proof. reflexivity. Qed.

Section Arrays.
Context {A : Type}.
Implicit Types l : list A.

Lemma Array_length_nonneg l : 0 ≤ Array_length l.
Proof. unfold Array_length. lia. Qed.

(** With indices in range order, [slice] is a [drop] followed by a [take]. *)
Lemma Array_slice_take_drop l (a b : Z) :
  0 ≤ a ≤ b →
  Array_slice l a b = take (Z.to_nat (b - a)) (drop (Z.to_nat a) l).
Proof.
  intros [Ha Hab]. unfold Array_slice, Array_length.
  destruct (Z.ltb_spec a 0) as [?|_]; [lia|].
  destruct (Z.ltb_spec b 0) as [?|_]; [lia|].
  destruct (decide (Z.of_nat (length l) ≤ a)) as [Hge|Hlt].
  - rewrite !drop_ge by lia. by rewrite !take_nil.
  - rewrite (Z.min_l a) by lia.
    destruct (decide (b ≤ Z.of_nat (length l))) as [Hb|Hb].
    + rewrite (Z.min_l b) by lia. f_equal. lia.
    + rewrite (Z.min_r b) by lia.
      rewrite !take_ge; [done | |]; rewrite length_drop; lia.
Qed.

Lemma Array_slice_length l (a b : Z) :
  0 ≤ a ≤ b →
  Array_length (Array_slice l a b) =
  Z.min b (Array_length l) - Z.min a (Array_length l).
Proof.
  intros H. rewrite Array_slice_take_drop by done.
  unfold Array_length. rewrite length_take, length_drop. lia.
Qed.

(** Past the end of the array, [slice] has nothing to return. *)
Lemma Array_slice_beyond l (a b : Z) :
  Array_length l ≤ a → Array_slice l a b = [].
Proof.
  intros Ha. unfold Array_slice. pose proof (Array_length_nonneg l).
  destruct (Z.ltb_spec a 0) as [?|_]; [lia|].
  rewrite (Z.min_r a) by lia. unfold Array_length in *.
  rewrite drop_ge by lia. apply take_nil.
Qed.

(** A callback that never throws makes [filter] the selection of the
    elements it accepts. *)
Lemma Array_filter_Normal (P : A → Prop) `{!∀ x, Decision (P x)}
    (p : A → bool) (cb : A → Completion bool) l :
  (∀ x, cb x = Normal (p x)) →
  (∀ x, p x = true ↔ P x) →
  Array_filter cb l = Normal (filter P l).
Proof.
  intros Hcb Hp. induction l as [|x l IH]; [done|].
  cbn [Array_filter]. rewrite Hcb, IH, filter_cons.
  destruct (p x) eqn:Hx.
  - apply Hp in Hx. by rewrite decide_True.
  - rewrite decide_False; [done|]. rewrite <- Hp. congruence.
Qed.

(** A callback that throws on every element makes [filter] throw as soon
    as there is an element. *)
Lemma Array_filter_Throw (cb : A → Completion bool) e x l :
  (∀ y, cb y = Throw e) → Array_filter cb (x :: l) = Throw e.
Proof. intros Hcb. cbn [Array_filter]. by rewrite Hcb. Qed.

Lemma Array_find_Some (p : A → bool) l x :
  Array_find p l = Some x → x ∈ l ∧ p x = true.
Proof.
  induction l as [|y l IH]; [done|]. cbn [Array_find].
  destruct (p y) eqn:Hy.
  - intros [= ->]. split; [left | done].
  - intros H. destruct (IH H). split; [by right | done].
Qed.

Lemma Array_find_None (p : A → bool) l :
  Array_find p l = None ↔ ∀ x, x ∈ l → p x = false.
Proof.
  induction l as [|y l IH]; cbn [Array_find].
  - split; [intros _ x Hx; by apply elem_of_nil in Hx | done].
  - destruct (p y) eqn:Hy.
    + split; [done|]. intros H. specialize (H y (list_elem_of_here _ _)).
      congruence.
    + rewrite IH. split.
      * intros H x [->|Hx]%elem_of_cons; auto.
      * intros H x Hx. apply H. by right.
Qed.

End Arrays.

Section Elements.

Lemma appendElements_app (parent elements : list Element) :
  appendElements parent elements = parent ++ elements.
Proof.
  unfold appendElements. f_equal.
  assert (∀ acc, fold_left (λ frag element, frag ++ [element]) elements acc
                 = acc ++ elements) as H.
  { induction elements as [|e els IH]; intros acc; cbn [fold_left].
    - by rewrite app_nil_r.
    - rewrite IH, <- app_assoc. done. }
  apply (H []).
Qed.

Lemma createBookPreviews_length (bs : list Book.t) (auth : JSObject) :
  Array_length (createBookPreviews bs auth) = Array_length bs.
Proof. unfold createBookPreviews, Array_length. by rewrite length_map. Qed.

Lemma classList_contains_add (c : string) (l : list string) :
  classList_contains c (classList_add c l) = true.
Proof.
  unfold classList_contains, classList_add.
  destruct (existsb (String.eqb c) l) eqn:H; [done|].
  rewrite existsb_app. cbn. rewrite String.eqb_refl. apply orb_true_r.
Qed.

Lemma classList_contains_remove (c : string) (l : list string) :
  classList_contains c (classList_remove c l) = false.
Proof.
  unfold classList_contains, classList_remove.
  induction l as [|x l IH]; [done|]. cbn [List.filter].
  destruct (String.eqb c x) eqn:H; cbn [negb]; [done|].
  cbn [existsb]. by rewrite H, IH.
Qed.

End Elements.

(** ** The search handler *)

Section Search.

Lemma criteria_test_spec (title genre author : string) (b : Book.t) :
  criteria_test title genre author b = true ↔ criteria_hold title genre author b.
Proof.
  unfold criteria_test, criteria_hold.
  rewrite !andb_true_iff, !orb_true_iff, !String.eqb_eq.
  rewrite includes_toLowerCase, existsb_exists.
  assert ((∃ x, In x (Book.genres b) ∧ String.eqb genre x = true)
          ↔ genre ∈ Book.genres b) as ->.
  { rewrite list_elem_of_In. split.
    - intros (x & Hx & ->%String.eqb_eq). done.
    - intros H. exists genre. by rewrite String.eqb_refl. }
  intuition congruence.
Qed.

#[global] Instance criteria_hold_dec title genre author b :
  Decision (criteria_hold title genre author b).
Proof.
  refine (cast_if (decide (criteria_test title genre author b = true)));
    by rewrite <- criteria_test_spec.
Defined.

(** The callback never throws when the form has a title field. *)
Lemma search_callback_title filters title b :
  obj_get filters "title" = Some title →
  search_callback filters b =
  Normal
    ((strict_equals (obj_get filters "genre") "any" ||
      Array_includes (Book.genres b) (obj_get filters "genre")) &&
     (String.eqb (trim title) EmptyString ||
      includes (toLowerCase (Book.title b)) (toLowerCase title)) &&
     (strict_equals (obj_get filters "author") "any" ||
      strict_equals (obj_get filters "author") (Book.author b))).
Proof. intros H. unfold search_callback. by rewrite H. Qed.

Lemma search_callback_fields filters title genre author b :
  obj_get filters "title" = Some title →
  obj_get filters "genre" = Some genre →
  obj_get filters "author" = Some author →
  search_callback filters b = Normal (criteria_test title genre author b).
Proof.
  intros Ht Hg Ha. rewrite (search_callback_title _ _ _ Ht), Hg, Ha. done.
Qed.

(** Without a title field the callback throws. *)
Lemma search_callback_no_title filters b :
  obj_get filters "title" = None → search_callback filters b = Throw TypeError.
Proof. intros H. unfold search_callback. by rewrite H. Qed.

Lemma handleSearch_inv d formData s s' :
  handleSearch d formData s = Normal s' →
  ∃ ms, Array_filter (search_callback (Object_fromEntries formData)) (books d)
        = Normal ms ∧ s' = show_matches d ms s.
Proof.
  unfold handleSearch.
  destruct (Array_filter _ _) as [ms|e]; [|discriminate].
  intros [= <-]. eauto.
Qed.

(** When the callback does not throw the handler returns, and its match
    set is the selection of the books the callback accepts. *)
Lemma handleSearch_Normal d formData s (p : Book.t → bool) :
  (∀ b, search_callback (Object_fromEntries formData) b = Normal (p b)) →
  handleSearch d formData s
  = Normal (show_matches d (filter (λ b, p b = true) (books d)) s).
Proof.
  intros Hp. unfold handleSearch.
  by rewrite (Array_filter_Normal (λ b, p b = true) p _ _ Hp).
Qed.

Lemma show_matches_items d ms s :
  list_items (list_view (document (show_matches d ms s)))
  = createBookPreviews (Array_slice ms 0 (BOOKS_PER_PAGE d)) (authors d).
Proof.
  unfold show_matches. cbn [document list_view list_items].
  by rewrite appendElements_app.
Qed.

Lemma show_matches_page d ms s : page (show_matches d ms s) = 1.
Proof. done. Qed.

Lemma show_matches_matches d ms s : matches (show_matches d ms s) = ms.
Proof. done. Qed.

End Search.

(** ** The search handler over any engine *)

Section SearchWith.

Lemma handleSearch_ascii d formData s :
  handleSearch d formData s = handleSearch_with ascii_engine d formData s.
Proof. reflexivity. Qed.

Lemma criteria_test_with_spec e title genre author b :
  criteria_test_with e title genre author b = true
  ↔ criteria_hold_with e title genre author b.
Proof.
  unfold criteria_test_with, criteria_hold_with.
  rewrite !andb_true_iff, !orb_true_iff, !String.eqb_eq.
  rewrite includes_spec, existsb_exists.
  assert ((∃ x, In x (Book.genres b) ∧ String.eqb genre x = true)
          ↔ genre ∈ Book.genres b) as ->.
  { rewrite list_elem_of_In. split.
    - intros (x & Hx & ->%String.eqb_eq). done.
    - intros H. exists genre. by rewrite String.eqb_refl. }
  intuition congruence.
Qed.

#[global] Instance criteria_hold_with_dec e title genre author b :
  Decision (criteria_hold_with e title genre author b).
Proof.
  refine (cast_if (decide (criteria_test_with e title genre author b = true)));
    by rewrite <- criteria_test_with_spec.
Defined.

Lemma search_callback_with_title e filters title b :
  obj_get filters "title" = Some title →
  search_callback_with e filters b =
  Normal
    ((strict_equals (obj_get filters "genre") "any" ||
      Array_includes (Book.genres b) (obj_get filters "genre")) &&
     (String.eqb (engine_trim e title) EmptyString ||
      includes (engine_toLowerCase e (Book.title b))
        (engine_toLowerCase e title)) &&
     (strict_equals (obj_get filters "author") "any" ||
      strict_equals (obj_get filters "author") (Book.author b))).
Proof. intros H. unfold search_callback_with. by rewrite H. Qed.

Lemma search_callback_with_fields e filters title genre author b :
  obj_get filters "title" = Some title →
  obj_get filters "genre" = Some genre →
  obj_get filters "author" = Some author →
  search_callback_with e filters b
  = Normal (criteria_test_with e title genre author b).
Proof.
  intros Ht Hg Ha.
  rewrite (search_callback_with_title _ _ _ _ Ht), Hg, Ha. done.
Qed.

Lemma handleSearch_with_inv e d formData s s' :
  handleSearch_with e d formData s = Normal s' →
  ∃ ms, Array_filter (search_callback_with e (Object_fromEntries formData))
          (books d) = Normal ms ∧ s' = show_matches d ms s.
Proof.
  unfold handleSearch_with.
  destruct (Array_filter _ _) as [ms|err]; [|discriminate].
  intros [= <-]. eauto.
Qed.

Lemma handleSearch_with_Normal e d formData s (p : Book.t → bool) :
  (∀ b, search_callback_with e (Object_fromEntries formData) b = Normal (p b)) →
  handleSearch_with e d formData s
  = Normal (show_matches d (filter (λ b, p b = true) (books d)) s).
Proof.
  intros Hp. unfold handleSearch_with.
  by rewrite (Array_filter_Normal (λ b, p b = true) p _ _ Hp).
Qed.

(** The search on a form with the three fields, over any engine. *)
Lemma handleSearch_with_form e d title genre author s :
  handleSearch_with e d (search_form title genre author) s
  = Normal (show_matches d
              (filter (criteria_hold_with e title genre author) (books d)) s).
Proof.
  rewrite (handleSearch_with_Normal e d _ s
             (criteria_test_with e title genre author))
    by (intros b; by apply search_callback_with_fields).
  do 2 f_equal. apply list_filter_iff. intros b. apply criteria_test_with_spec.
Qed.

End SearchWith.

(** The search on the sample data: the three books whose title has "dune"
    in it, whatever the case of the letters, in the order of the data. *)
Example search_dune :
  matches (dispatch sample_data light_window sample_state
             (SearchFormSubmit (search_form "DUNE" "any" "any")))
  = [book "b1" "Dune" "a1" ["g1"];
     book "b3" "Dune Messiah" "a1" ["g1"];
     book "b5" "Children of Dune" "a1" ["g1"; "g3"]].
Proof. vm_compute. reflexivity. Qed.

Example search_genre_author :
  map Book.id
    (matches (dispatch sample_data light_window sample_state
                (SearchFormSubmit (search_form "  " "g3" "a2"))))
  = ["b2"].
Proof. vm_compute. reflexivity. Qed.

(** A form without a title field makes the handler throw, and the state
    stays as it was. *)
Example search_without_title :
  handleSearch sample_data [("genre", "any"); ("author", "any")] sample_state
  = Throw TypeError.
Proof. vm_compute. reflexivity. Qed.

(** C1: for a search form with a title, a genre and an author field, and
    whatever the engine's lowercasing and trimming are, the handler returns,
    and the match set it stores is exactly the books of the data for which
    the three criteria hold (the genre is "any" or one of the book's genres;
    the title is empty after trimming or the book's title contains it when
    both are lowercased; the author is "any" or the book's author), in the
    order of the data: it is that selection, and so a subsequence of the
    books. *)
Theorem handleSearch_match_set e d formData s title genre author :
  obj_get (Object_fromEntries formData) "title" = Some title →
  obj_get (Object_fromEntries formData) "genre" = Some genre →
  obj_get (Object_fromEntries formData) "author" = Some author →
  ∃ s', handleSearch_with e d formData s = Normal s' ∧
        matches s' = filter (criteria_hold_with e title genre author) (books d) ∧
        matches s' `sublist_of` books d ∧
        ∀ b, b ∈ matches s' ↔
             b ∈ books d ∧ criteria_hold_with e title genre author b.
Proof.
  intros Ht Hg Ha.
  pose proof (handleSearch_with_Normal e d formData s
                (criteria_test_with e title genre author)) as Hs.
  rewrite Hs by (intros b; by apply search_callback_with_fields).
  eexists. split; [done|]. rewrite show_matches_matches.
  assert (filter (λ b, criteria_test_with e title genre author b = true) (books d)
          = filter (criteria_hold_with e title genre author) (books d)) as ->.
  { apply list_filter_iff. intros b. apply criteria_test_with_spec. }
  split; [done|]. split; [apply sublist_filter|].
  intros b. rewrite list_elem_of_filter. tauto.
Qed.

Lemma handleSearch_match_set_witness :
  let formData := search_form "dune" "g1" "a1" in
  obj_get (Object_fromEntries formData) "title" = Some "dune" ∧
  obj_get (Object_fromEntries formData) "genre" = Some "g1" ∧
  obj_get (Object_fromEntries formData) "author" = Some "a1" ∧
  ∃ s', handleSearch_with ascii_engine sample_data formData sample_state
        = Normal s' ∧
        matches s'
        = filter (criteria_hold_with ascii_engine "dune" "g1" "a1")
            (books sample_data) ∧
        matches s' `sublist_of` books sample_data ∧
        ∀ b, b ∈ matches s' ↔
             b ∈ books sample_data ∧
             criteria_hold_with ascii_engine "dune" "g1" "a1" b.
Proof.
  intros formData. split; [reflexivity|]. split; [reflexivity|].
  split; [reflexivity|].
  apply (handleSearch_match_set ascii_engine sample_data formData sample_state
           "dune" "g1" "a1"); reflexivity.
Defined.

(** C10: trimming the title criterion only decides whether it counts as
    empty.  Whatever the engine's lowercasing and trimming are, when the
    trimmed criterion is not empty (as when whitespace surrounds a term), a
    book is in the match set only if its lowercased title contains the
    lowercased criterion as it was typed, padding included, as a literal
    substring. *)
Theorem handleSearch_title_untrimmed e d formData s s' title b :
  obj_get (Object_fromEntries formData) "title" = Some title →
  engine_trim e title ≠ EmptyString →
  handleSearch_with e d formData s = Normal s' →
  b ∈ matches s' →
  contains (engine_toLowerCase e (Book.title b)) (engine_toLowerCase e title).
Proof.
  intros Ht Hne Hs Hb.
  rewrite (handleSearch_with_Normal e d formData s _
             (λ b, search_callback_with_title e _ _ b Ht)) in Hs.
  injection Hs as <-. rewrite show_matches_matches in Hb.
  apply list_elem_of_filter in Hb as [Hb _].
  apply andb_true_iff in Hb as [Hb _]. apply andb_true_iff in Hb as [_ Hb].
  apply orb_true_iff in Hb as [Hb|Hb].
  - by apply String.eqb_eq in Hb.
  - by apply includes_spec.
Qed.

Lemma handleSearch_title_untrimmed_witness :
  let formData := search_form "dune " "any" "any" in
  let b := book "b3" "Dune Messiah" "a1" ["g1"] in
  obj_get (Object_fromEntries formData) "title" = Some "dune " ∧
  engine_trim ascii_engine "dune " ≠ EmptyString ∧
  handleSearch_with ascii_engine sample_data formData sample_state
  = Normal (show_matches sample_data [b] sample_state) ∧
  b ∈ matches (show_matches sample_data [b] sample_state) ∧
  contains (engine_toLowerCase ascii_engine (Book.title b))
    (engine_toLowerCase ascii_engine "dune ").
Proof.
  intros formData b.
  assert (engine_trim ascii_engine "dune " ≠ EmptyString) as Hne
    by discriminate.
  assert (handleSearch_with ascii_engine sample_data formData sample_state
          = Normal (show_matches sample_data [b] sample_state)) as Hs
    by (vm_compute; reflexivity).
  assert (b ∈ matches (show_matches sample_data [b] sample_state)) as Hb
    by (left).
  split; [reflexivity|]. split; [exact Hne|]. split; [exact Hs|].
  split; [exact Hb|].
  exact (handleSearch_title_untrimmed ascii_engine sample_data formData
           sample_state _ "dune " b eq_refl Hne Hs Hb).
Defined.

(** The trimmed term is not what is matched: "Dune" contains the trimmed
    criterion "dune" up to case, and the padded criterion finds no book. *)
Example padded_title_misses_trimmed_match :
  contains_ci "Dune" (trim "  dune") ∧
  matches (dispatch sample_data light_window sample_state
             (SearchFormSubmit (search_form "  dune" "any" "any"))) = [].
Proof.
  split.
  - apply includes_toLowerCase. vm_compute. reflexivity.
  - vm_compute. reflexivity.
Qed.

(** C6: after the search handler, the no-results message is shown exactly
    when the match set is empty, the show-more button is disabled exactly
    when the match set has at most BOOKS_PER_PAGE books, and the button
    reports max(|match set| - BOOKS_PER_PAGE, 0) remaining books. *)
Theorem handleSearch_metadata d formData s s' :
  handleSearch d formData s = Normal s' →
  (is_empty s' = true ↔ Array_length (matches s') = 0) ∧
  (is_exhausted s' = true ↔ Array_length (matches s') ≤ BOOKS_PER_PAGE d) ∧
  list_button_innerHTML (list_view (document s'))
  = list_button_html (Z.max (Array_length (matches s') - BOOKS_PER_PAGE d) 0).
Proof.
  intros (ms & _ & ->)%handleSearch_inv.
  unfold is_empty, is_exhausted, show_matches.
  cbn [document list_view matches list_message_classList list_button_disabled
       list_button_innerHTML].
  pose proof (Array_length_nonneg ms) as Hlen.
  split; [|split; [apply Z.leb_le | done]].
  destruct (Z.ltb_spec (Array_length ms) 1) as [Hlt|Hge].
  - rewrite classList_contains_add. split; [lia | done].
  - rewrite classList_contains_remove. split; [done | lia].
Qed.

Lemma handleSearch_metadata_witness :
  let formData := search_form "dune" "any" "any" in
  let s' := show_matches sample_data
              (filter (criteria_hold "dune" "any" "any") sample_books)
              sample_state in
  handleSearch sample_data formData sample_state = Normal s' ∧
  (is_empty s' = true ↔ Array_length (matches s') = 0) ∧
  (is_exhausted s' = true ↔
   Array_length (matches s') ≤ BOOKS_PER_PAGE sample_data) ∧
  list_button_innerHTML (list_view (document s'))
  = list_button_html
      (Z.max (Array_length (matches s') - BOOKS_PER_PAGE sample_data) 0).
Proof.
  intros formData s'.
  assert (handleSearch sample_data formData sample_state = Normal s') as Hs
    by (vm_compute; reflexivity).
  split; [exact Hs|].
  exact (handleSearch_metadata sample_data formData sample_state s' Hs).
Defined.


(** ** The show-more handler and the page cursor *)

Section Pagination.

(** The previews one click adds are those of the next BOOKS_PER_PAGE books
    of the match set after the first [page] pages. *)
Lemma handleShowMore_items d s :
  0 ≤ page s → 0 ≤ BOOKS_PER_PAGE d →
  list_items (list_view (document (handleShowMore d s)))
  = list_items (list_view (document s)) ++
    createBookPreviews
      (take (Z.to_nat (BOOKS_PER_PAGE d))
         (drop (Z.to_nat (page s * BOOKS_PER_PAGE d)) (matches s)))
      (authors d).
Proof.
  intros Hp Hb. unfold handleShowMore.
  cbn [document list_view list_items with_list_view].
  rewrite appendElements_app, Array_slice_take_drop by nia.
  do 4 f_equal. lia.
Qed.

Lemma handleShowMore_page d s : page (handleShowMore d s) = page s + 1.
Proof. done. Qed.

Lemma handleShowMore_matches d s : matches (handleShowMore d s) = matches s.
Proof. done. Qed.

(** Reading a page of the match set index by index. *)
Lemma page_lookup {A} (l : list A) (c size : Z) (i : nat) :
  0 ≤ c → 0 ≤ size →
  take (Z.to_nat size) (drop (Z.to_nat (c * size)) l) !! i
  = if decide (Z.of_nat i < size) then l !! Z.to_nat (c * size + Z.of_nat i)
    else None.
Proof.
  intros Hc Hs. case_decide.
  - rewrite lookup_take_lt by lia. rewrite lookup_drop. f_equal. nia.
  - apply lookup_take_ge. lia.
Qed.

Lemma cursor_invariant_initialize d w doc :
  0 ≤ BOOKS_PER_PAGE d →
  list_items (list_view doc) = [] →
  cursor_invariant d (initialize d w doc).
Proof.
  intros Hb Hdoc. unfold cursor_invariant, rendered_count, initialize.
  cbn [page matches document applyTheme with_settings_view with_search_view
       with_list_view list_view list_items search_view].
  split; [lia|].
  rewrite Hdoc, appendElements_app, app_nil_l, createBookPreviews_length.
  rewrite Array_slice_length by lia.
  pose proof (Array_length_nonneg (books d)). lia.
Qed.

Lemma cursor_invariant_show_matches d ms s :
  0 ≤ BOOKS_PER_PAGE d → cursor_invariant d (show_matches d ms s).
Proof.
  intros Hb. unfold cursor_invariant, rendered_count.
  rewrite show_matches_items, show_matches_page, show_matches_matches.
  split; [lia|].
  rewrite createBookPreviews_length, Array_slice_length by lia.
  pose proof (Array_length_nonneg ms). lia.
Qed.

Lemma cursor_invariant_handleShowMore d s :
  0 ≤ BOOKS_PER_PAGE d →
  cursor_invariant d s → cursor_invariant d (handleShowMore d s).
Proof.
  intros Hb [Hp Hc]. unfold cursor_invariant, rendered_count in *.
  rewrite handleShowMore_page, handleShowMore_matches.
  split; [lia|]. unfold handleShowMore.
  cbn [document list_view list_items with_list_view].
  rewrite appendElements_app. unfold Array_length at 1.
  rewrite length_app, Nat2Z.inj_add.
  fold (Array_length (list_items (list_view (document s)))).
  fold (Array_length
          (createBookPreviews
             (Array_slice (matches s) (page s * BOOKS_PER_PAGE d)
                ((page s + 1) * BOOKS_PER_PAGE d)) (authors d))).
  rewrite Hc, createBookPreviews_length, Array_slice_length by nia.
  pose proof (Array_length_nonneg (matches s)). nia.
Qed.

(** A listener that leaves the cursor, the match set and the list alone
    keeps the invariant. *)
Lemma cursor_invariant_ext d s s' :
  page s' = page s → matches s' = matches s →
  list_items (list_view (document s')) = list_items (list_view (document s)) →
  cursor_invariant d s → cursor_invariant d s'.
Proof.
  unfold cursor_invariant, rendered_count. intros -> -> ->. done.
Qed.

Lemma handleBookClick_list d w composedPath s :
  page (handleBookClick d w composedPath s) = page s ∧
  matches (handleBookClick d w composedPath s) = matches s ∧
  list_view (document (handleBookClick d w composedPath s))
  = list_view (document s).
Proof. unfold handleBookClick. by destruct (find_book _ _). Qed.

Lemma cursor_invariant_dispatch d w s ev :
  0 ≤ BOOKS_PER_PAGE d →
  cursor_invariant d s → cursor_invariant d (dispatch d w s ev).
Proof.
  intros Hb Hs. unfold dispatch.
  destruct (listener d w ev s) as [s'|e] eqn:Hl; [|done].
  destruct ev; cbn [listener] in Hl;
    try (injection Hl as <-; by apply (cursor_invariant_ext d s)).
  - apply handleSearch_inv in Hl as (ms & _ & ->).
    by apply cursor_invariant_show_matches.
  - injection Hl as <-. by apply cursor_invariant_handleShowMore.
  - injection Hl as <-.
    destruct (handleBookClick_list d w composedPath s) as (Hp & Hm & Hv).
    apply (cursor_invariant_ext d s); [done | done | by rewrite Hv | done].
Qed.

Lemma cursor_invariant_run d w evs s :
  0 ≤ BOOKS_PER_PAGE d →
  cursor_invariant d s → cursor_invariant d (run d w evs s).
Proof.
  intros Hb. revert s. unfold run.
  induction evs as [|ev evs IH]; intros s Hs; cbn [fold_left]; [done|].
  apply IH. by apply cursor_invariant_dispatch.
Qed.

End Pagination.

(** The scenario of the specification: five books, two per page, no filter.
    The search shows the first two and reports three more; the first click
    shows the next two and reports one more; the second click shows the last
    one and disables the button. *)
Example scenario_five_books :
  let s0 := dispatch sample_data light_window sample_state
              (SearchFormSubmit (search_form EmptyString "any" "any")) in
  let s1 := dispatch sample_data light_window s0 ListButtonClick in
  let s2 := dispatch sample_data light_window s1 ListButtonClick in
  (rendered_count s0, is_exhausted s0, list_button_innerHTML (list_view (document s0)))
  = (2, false, list_button_html 3) ∧
  (rendered_count s1, is_exhausted s1, list_button_innerHTML (list_view (document s1)))
  = (4, false, list_button_html 1) ∧
  (rendered_count s2, is_exhausted s2, list_button_innerHTML (list_view (document s2)))
  = (5, true, list_button_html 0) ∧
  list_items (list_view (document s2))
  = createBookPreviews sample_books (authors sample_data).
Proof. vm_compute. repeat split; reflexivity. Qed.

(** The scenario of a search that finds nothing. *)
Example scenario_no_match :
  let s0 := dispatch sample_data light_window sample_state
              (SearchFormSubmit (search_form "zzz-no-match" "any" "any")) in
  (matches s0, is_empty s0, is_exhausted s0,
   list_button_innerHTML (list_view (document s0)))
  = ([], true, true, list_button_html 0).
Proof. vm_compute. reflexivity. Qed.

(** C3: whatever the state before, and whatever the engine's lowercasing
    and trimming are, a search that returns stores as the match set what
    [books.filter] returned for the submitted criteria, sets the page cursor
    to 1 and shows the first BOOKS_PER_PAGE books of that match set; the next
    show-more click keeps the match set and adds the previews of its books
    from index BOOKS_PER_PAGE on (at most BOOKS_PER_PAGE of them), whatever
    the cursor and the match set were before the search. *)
Theorem handleSearch_resets_cursor e d formData s s' :
  0 < BOOKS_PER_PAGE d →
  handleSearch_with e d formData s = Normal s' →
  page s' = 1 ∧
  Array_filter (search_callback_with e (Object_fromEntries formData)) (books d)
  = Normal (matches s') ∧
  list_items (list_view (document s'))
  = createBookPreviews (take (Z.to_nat (BOOKS_PER_PAGE d)) (matches s'))
      (authors d) ∧
  matches (handleShowMore d s') = matches s' ∧
  page (handleShowMore d s') = 2 ∧
  list_items (list_view (document (handleShowMore d s')))
  = list_items (list_view (document s')) ++
    createBookPreviews
      (take (Z.to_nat (BOOKS_PER_PAGE d))
         (drop (Z.to_nat (BOOKS_PER_PAGE d)) (matches s')))
      (authors d).
Proof.
  intros Hb (ms & Hms & ->)%handleSearch_with_inv.
  rewrite show_matches_matches, show_matches_page.
  split; [done|]. split; [exact Hms|]. split.
  { rewrite show_matches_items, Array_slice_take_drop by lia.
    by rewrite Z.sub_0_r. }
  split; [done|]. split; [done|].
  rewrite handleShowMore_items by (rewrite ?show_matches_page; lia).
  rewrite show_matches_page, show_matches_matches. do 4 f_equal. lia.
Qed.

Lemma handleSearch_resets_cursor_witness :
  let formData := search_form "dune" "any" "any" in
  let s := handleShowMore sample_data (handleShowMore sample_data sample_state) in
  let s' := show_matches sample_data
              (filter (criteria_hold "dune" "any" "any") sample_books) s in
  0 < BOOKS_PER_PAGE sample_data ∧
  handleSearch_with ascii_engine sample_data formData s = Normal s' ∧
  page s' = 1 ∧
  Array_filter (search_callback_with ascii_engine (Object_fromEntries formData))
    (books sample_data)
  = Normal (matches s') ∧
  list_items (list_view (document s'))
  = createBookPreviews
      (take (Z.to_nat (BOOKS_PER_PAGE sample_data)) (matches s'))
      (authors sample_data) ∧
  matches (handleShowMore sample_data s') = matches s' ∧
  page (handleShowMore sample_data s') = 2 ∧
  list_items (list_view (document (handleShowMore sample_data s')))
  = list_items (list_view (document s')) ++
    createBookPreviews
      (take (Z.to_nat (BOOKS_PER_PAGE sample_data))
         (drop (Z.to_nat (BOOKS_PER_PAGE sample_data)) (matches s')))
      (authors sample_data).
Proof.
  intros formData s s'.
  assert (0 < BOOKS_PER_PAGE sample_data) as Hb by reflexivity.
  assert (handleSearch_with ascii_engine sample_data formData s = Normal s')
    as Hs by (vm_compute; reflexivity).
  split; [exact Hb|]. split; [exact Hs|].
  exact (handleSearch_resets_cursor ascii_engine sample_data formData s s'
           Hb Hs).
Defined.

(** C4: with a positive page size and the cursor at c >= 1, a show-more
    click adds the previews of the slice [c * BOOKS_PER_PAGE,
    (c+1) * BOOKS_PER_PAGE) of the match set (index i of the slice is index
    c * BOOKS_PER_PAGE + i of the match set, for i < BOOKS_PER_PAGE), moves
    the cursor to c + 1, leaves the match set alone, reports
    max(|match set| - (c+1) * BOOKS_PER_PAGE, 0) remaining books, and
    disables the button exactly when |match set| <= (c+1) * BOOKS_PER_PAGE. *)
Theorem handleShowMore_slice d s :
  1 ≤ page s → 0 < BOOKS_PER_PAGE d →
  let c := page s in
  let size := BOOKS_PER_PAGE d in
  let s' := handleShowMore d s in
  let slice := Array_slice (matches s) (c * size) ((c + 1) * size) in
  list_items (list_view (document s'))
  = list_items (list_view (document s)) ++ createBookPreviews slice (authors d) ∧
  slice = take (Z.to_nat size) (drop (Z.to_nat (c * size)) (matches s)) ∧
  (∀ i : nat, slice !! i =
     if decide (Z.of_nat i < size)
     then matches s !! Z.to_nat (c * size + Z.of_nat i) else None) ∧
  page s' = c + 1 ∧
  matches s' = matches s ∧
  list_button_innerHTML (list_view (document s'))
  = list_button_html (Z.max (Array_length (matches s) - (c + 1) * size) 0) ∧
  (is_exhausted s' = true ↔ Array_length (matches s) ≤ (c + 1) * size).
Proof.
  intros Hp Hb c size s' slice.
  assert (slice = take (Z.to_nat size) (drop (Z.to_nat (c * size)) (matches s)))
    as Hslice.
  { unfold slice. rewrite Array_slice_take_drop by nia. do 2 f_equal. lia. }
  split.
  { unfold s', handleShowMore.
    cbn [document list_view list_items with_list_view].
    by rewrite appendElements_app. }
  split; [exact Hslice|]. split.
  { intros i. rewrite Hslice. apply page_lookup; lia. }
  split; [done|]. split; [done|]. split; [done|].
  unfold is_exhausted, s', handleShowMore.
  cbn [document list_view list_button_disabled with_list_view].
  apply Z.leb_le.
Qed.

Lemma handleShowMore_slice_witness :
  let d := sample_data in
  let s := sample_state in
  let c := page s in
  let size := BOOKS_PER_PAGE d in
  let s' := handleShowMore d s in
  let slice := Array_slice (matches s) (c * size) ((c + 1) * size) in
  1 ≤ page s ∧ 0 < BOOKS_PER_PAGE d ∧
  list_items (list_view (document s'))
  = list_items (list_view (document s)) ++ createBookPreviews slice (authors d) ∧
  slice = take (Z.to_nat size) (drop (Z.to_nat (c * size)) (matches s)) ∧
  (∀ i : nat, slice !! i =
     if decide (Z.of_nat i < size)
     then matches s !! Z.to_nat (c * size + Z.of_nat i) else None) ∧
  page s' = c + 1 ∧
  matches s' = matches s ∧
  list_button_innerHTML (list_view (document s'))
  = list_button_html (Z.max (Array_length (matches s) - (c + 1) * size) 0) ∧
  (is_exhausted s' = true ↔ Array_length (matches s) ≤ (c + 1) * size).
Proof.
  intros d s c size s' slice.
  assert (1 ≤ page s) as Hp by (vm_compute; discriminate).
  assert (0 < BOOKS_PER_PAGE d) as Hb by reflexivity.
  split; [exact Hp|]. split; [exact Hb|].
  exact (handleShowMore_slice d s Hp Hb).
Defined.

(** C5: when the page size is positive and the list is empty before the
    script runs, then after initialization and after every listener that
    follows, the number of previews in the list is
    min(page * BOOKS_PER_PAGE, |match set|). *)
Theorem rendered_count_invariant d w doc evs :
  0 < BOOKS_PER_PAGE d →
  list_items (list_view doc) = [] →
  let s := run d w evs (initialize d w doc) in
  rendered_count s = Z.min (page s * BOOKS_PER_PAGE d) (Array_length (matches s)).
Proof.
  intros Hb Hdoc s.
  assert (cursor_invariant d s) as [_ H]; [|exact H].
  apply cursor_invariant_run; [lia|].
  apply cursor_invariant_initialize; [lia | done].
Qed.

Lemma rendered_count_invariant_witness :
  let evs := [ListButtonClick;
              SearchFormSubmit (search_form "dune" "any" "any");
              ListButtonClick; ListButtonClick] in
  let s := run sample_data light_window evs
             (initialize sample_data light_window blank_document) in
  0 < BOOKS_PER_PAGE sample_data ∧
  list_items (list_view blank_document) = [] ∧
  rendered_count s
  = Z.min (page s * BOOKS_PER_PAGE sample_data) (Array_length (matches s)).
Proof.
  intros evs s.
  assert (0 < BOOKS_PER_PAGE sample_data) as Hb by reflexivity.
  split; [exact Hb|]. split; [reflexivity|].
  exact (rendered_count_invariant sample_data light_window blank_document evs
           Hb eq_refl).
Defined.

(** C8: a show-more click on an exhausted match set
    (page * BOOKS_PER_PAGE >= |match set|) returns normally: the slice is
    empty and the list stays as it is.  The search handler returns normally
    for every title, genre and author the form can hold, and when no book
    matches it leaves an empty list. *)
Theorem handlers_do_not_fail d w s1 s2 formData title :
  Array_length (matches s1) ≤ page s1 * BOOKS_PER_PAGE d →
  obj_get (Object_fromEntries formData) "title" = Some title →
  (Array_slice (matches s1) (page s1 * BOOKS_PER_PAGE d)
     ((page s1 + 1) * BOOKS_PER_PAGE d) = [] ∧
   ∃ s1', listener d w ListButtonClick s1 = Normal s1' ∧
          list_items (list_view (document s1'))
          = list_items (list_view (document s1))) ∧
  ∃ s2', listener d w (SearchFormSubmit formData) s2 = Normal s2' ∧
         (matches s2' = [] → list_items (list_view (document s2')) = []).
Proof.
  intros Hex Ht. split.
  - pose proof (Array_slice_beyond (matches s1) _
                  ((page s1 + 1) * BOOKS_PER_PAGE d) Hex) as Hslice.
    split; [exact Hslice|]. eexists. split; [reflexivity|].
    unfold handleShowMore. cbn [document list_view list_items with_list_view].
    rewrite Hslice, appendElements_app. apply app_nil_r.
  - cbn [listener].
    rewrite (handleSearch_Normal d formData s2 _
               (λ b, search_callback_title _ _ b Ht)).
    eexists. split; [reflexivity|].
    rewrite show_matches_matches, show_matches_items. intros ->.
    unfold Array_slice. by rewrite drop_nil, take_nil.
Qed.

Lemma handlers_do_not_fail_witness :
  let d := sample_data in
  let w := light_window in
  let s1 := run d w [ListButtonClick; ListButtonClick] sample_state in
  let formData := search_form "zzz-no-match" "any" "any" in
  Array_length (matches s1) ≤ page s1 * BOOKS_PER_PAGE d ∧
  obj_get (Object_fromEntries formData) "title" = Some "zzz-no-match" ∧
  (Array_slice (matches s1) (page s1 * BOOKS_PER_PAGE d)
     ((page s1 + 1) * BOOKS_PER_PAGE d) = [] ∧
   ∃ s1', listener d w ListButtonClick s1 = Normal s1' ∧
          list_items (list_view (document s1'))
          = list_items (list_view (document s1))) ∧
  ∃ s2', listener d w (SearchFormSubmit formData) sample_state = Normal s2' ∧
         (matches s2' = [] → list_items (list_view (document s2')) = []).
Proof.
  intros d w s1 formData.
  assert (Array_length (matches s1) ≤ page s1 * BOOKS_PER_PAGE d) as Hex
    by (vm_compute; discriminate).
  split; [exact Hex|]. split; [reflexivity|].
  exact (handlers_do_not_fail d w s1 sample_state formData "zzz-no-match"
           Hex eq_refl).
Defined.


(** ** The click on a preview *)

Section Lookup.

Lemma find_book_Some d x b :
  find_book d (Some x) = Some b → b ∈ books d ∧ Book.id b = x.
Proof.
  unfold find_book. intros [Hb Hx]%Array_find_Some. split; [done|].
  cbn [strict_equals] in Hx. by apply String.eqb_eq in Hx.
Qed.

Lemma find_book_None d x :
  find_book d (Some x) = None ↔ ∀ b, b ∈ books d → Book.id b ≠ x.
Proof.
  unfold find_book. rewrite Array_find_None. cbn [strict_equals].
  split; intros H b Hb; specialize (H b Hb).
  - apply String.eqb_neq in H. congruence.
  - apply String.eqb_neq. congruence.
Qed.

(** A click that is on no preview finds no book. *)
Lemma find_book_undefined d : find_book d None = None.
Proof. unfold find_book. by apply Array_find_None. Qed.

(** The token of a click is never the empty string. *)
Lemma active_preview_truthy composedPath x :
  active_preview composedPath = Some x → x ≠ EmptyString.
Proof.
  unfold active_preview.
  destruct (Array_find _ composedPath) as [node|] eqn:Hf; [|done].
  apply Array_find_Some in Hf as [_ Ht]. cbn. intros Hx.
  rewrite Hx in Ht. cbn in Ht. intros ->. done.
Qed.

(** When a book has the token as its id, the detail overlay opens on the
    first such book. *)
Lemma handleBookClick_found d w composedPath s b :
  find_book d (active_preview composedPath) = Some b →
  let v := detail_view (document (handleBookClick d w composedPath s)) in
  list_active_open v = true ∧ list_title v = Book.title b ∧
  list_image_src v = Book.image b ∧ list_description v = Book.description b.
Proof. intros H. unfold handleBookClick. by rewrite H. Qed.

End Lookup.

(** C7: the lookup of the click handler returns a book for the token x
    exactly when some book of the data has x as its id, and the book it
    returns is such a book; when no book has that id the lookup answers
    not-found, the handler returns, and the state, the detail view with it,
    stays as it was. *)
Theorem handleBookClick_lookup d w x :
  ((∃ b, find_book d (Some x) = Some b) ↔ (∃ b, b ∈ books d ∧ Book.id b = x)) ∧
  (∀ b, find_book d (Some x) = Some b → b ∈ books d ∧ Book.id b = x) ∧
  (∀ composedPath s,
     active_preview composedPath = Some x →
     (∀ b, b ∈ books d → Book.id b ≠ x) →
     find_book d (Some x) = None ∧
     listener d w (ListItemsClick composedPath) s = Normal s).
Proof.
  split; [|split].
  - split.
    + intros [b Hb]. exists b. by apply find_book_Some.
    + intros (b & Hb & Hx).
      destruct (find_book d (Some x)) as [b'|] eqn:Hf; [eauto|].
      rewrite find_book_None in Hf. by destruct (Hf b Hb).
  - intros b. apply find_book_Some.
  - intros composedPath s Ha Hno. apply find_book_None in Hno.
    split; [done|]. cbn [listener]. unfold handleBookClick. by rewrite Ha, Hno.
Qed.

Example click_on_preview :
  let path := [ {| dataset := Some [] |};
                {| dataset := Some [("preview", "b2")] |};
                {| dataset := Some [] |};
                {| dataset := None |} ] in
  let s := handleBookClick sample_data light_window path sample_state in
  active_preview path = Some "b2" ∧
  list_active_open (detail_view (document s)) = true ∧
  list_title (detail_view (document s)) = "Emma" ∧
  list_subtitle (detail_view (document s)) = "Jane Austen (1965)".
Proof. vm_compute. repeat split; reflexivity. Qed.

Example click_on_unknown_preview :
  let path := [ {| dataset := Some [("preview", "b9")] |}; {| dataset := None |} ] in
  find_book sample_data (active_preview path) = None ∧
  handleBookClick sample_data light_window path sample_state = sample_state.
Proof. vm_compute. split; reflexivity. Qed.


(** ** The dropdown options *)

Section Options.

Lemma createElement_option value content :
  createElement "option" [("value", value)] content = option_element value content.
Proof. reflexivity. Qed.

Lemma fold_left_push {A B} (f : A → B) (l : list A) (acc : list B) :
  fold_left (λ options x, options ++ [f x]) l acc = acc ++ map f l.
Proof.
  revert acc. induction l as [|x l IH]; intros acc; cbn [fold_left map].
  - by rewrite app_nil_r.
  - by rewrite IH, <- app_assoc.
Qed.

End Options.

(** C9: for every mapping and every default label, [createOptions] returns
    the default option, with value "any" and the label as content, followed
    by one option per entry of the mapping, in the order [Object.entries]
    gives them, each with the entry's id as value and its name as
    content. *)
Theorem createOptions_spec (data : JSObject) (defaultOptionText : string) :
  createOptions data defaultOptionText
  = option_element "any" defaultOptionText ::
    map (λ entry, option_element entry.1 entry.2) (Object_entries data).
Proof.
  unfold createOptions.
  rewrite (fold_left_push (λ kv, createElement "option" [("value", kv.1)] kv.2)).
  rewrite createElement_option. cbn [app]. f_equal.
Qed.

Example genre_options :
  map (λ e, (obj_get (attributes e) "value", innerHTML e))
    (createOptions (genres sample_data) "All Genres")
  = [(Some "any", "All Genres"); (Some "g1", "Science Fiction");
     (Some "g2", "Romance"); (Some "g3", "Classics")].
Proof. vm_compute. reflexivity. Qed.


(** ** The theme *)

Section ThemeFacts.

Lemma applyTheme_settings w doc :
  settings_view (applyTheme w doc)
  = {| settings_overlay_open := settings_overlay_open (settings_view doc);
       settings_theme_value := Some (if prefers_dark w then "night" else "day");
       color_dark :=
         Some (if prefers_dark w then "255, 255, 255" else "10, 10, 20");
       color_light :=
         Some (if prefers_dark w then "10, 10, 20" else "255, 255, 255") |}.
Proof.
  unfold applyTheme, prefers_dark. cbn [settings_view with_settings_view].
  by destruct (match matchMedia w with Some mm => _ | None => _ end).
Qed.

(** At startup the theme follows the preference signal of the environment. *)
Lemma initialize_theme d w doc :
  applied_theme (initialize d w doc)
  = Some (if prefers_dark w then night else day).
Proof.
  unfold applied_theme, initialize. cbn [document].
  rewrite applyTheme_settings. cbn [color_dark color_light].
  by destruct (prefers_dark w).
Qed.

(** The settings handler applies the theme of the environment, whatever the
    form holds. *)
Lemma handleSettings_theme w formData s :
  applied_theme (handleSettings w formData s)
  = Some (if prefers_dark w then night else day) ∧
  settings_theme_value (settings_view (document (handleSettings w formData s)))
  = Some (Theme_name (if prefers_dark w then night else day)).
Proof.
  unfold applied_theme, handleSettings.
  cbn [document with_document settings_view with_settings_view
       with_settings_overlay].
  rewrite applyTheme_settings.
  cbn [color_dark color_light settings_theme_value].
  by destruct (prefers_dark w).
Qed.

End ThemeFacts.

(** C2: on a browser that reports a light colour scheme, submitting the
    settings form with the theme "night" leaves the day colours applied and
    sets the theme control back to "day"; on a browser that reports a dark
    scheme, submitting "day" leaves the night colours applied.  The handler
    does not apply the submitted choice. *)
Theorem settings_choice_overridden :
  let s1 := dispatch sample_data light_window sample_state
              (SettingsFormSubmit [("theme", "night")]) in
  let s2 := dispatch sample_data dark_window
              (initialize sample_data dark_window blank_document)
              (SettingsFormSubmit [("theme", "day")]) in
  applied_theme s1 = Some day ∧
  settings_theme_value (settings_view (document s1)) = Some "day" ∧
  applied_theme s2 = Some night ∧
  settings_theme_value (settings_view (document s2)) = Some "night".
Proof. vm_compute. repeat split; reflexivity. Qed.


(** * Further properties of the script *)

(** ** Elements and attributes *)

Section MoreElements.

Lemma obj_set_fresh (o : JSObject) (k v : string) :
  k ∉ o.*1 → obj_set o k v = o ++ [(k, v)].
Proof.
  induction o as [|[k' v'] o IH]; intros Hk; [done|].
  cbn [obj_set]. rewrite fmap_cons, not_elem_of_cons in Hk.
  destruct Hk as [Hne Hk]. cbn [fst] in Hne.
  destruct (String.eqb_spec k' k) as [->|_]; [done|].
  by rewrite IH.
Qed.

Lemma setAttribute_all (attrs acc : JSObject) :
  NoDup ((acc ++ attrs).*1) →
  fold_left (λ el kv, obj_set el kv.1 kv.2) attrs acc = acc ++ attrs.
Proof.
  revert acc. induction attrs as [|[k v] attrs IH]; intros acc Hnd.
  - by rewrite app_nil_r.
  - cbn [fold_left fst snd]. rewrite obj_set_fresh.
    + rewrite IH, <- app_assoc; [done|]. by rewrite <- app_assoc.
    + rewrite fmap_app, NoDup_app in Hnd. destruct Hnd as (_ & Hd & _).
      intros Hin. apply (Hd k Hin). rewrite fmap_cons. left.
Qed.

Lemma createBookPreviews_map (bs : list Book.t) (auth : JSObject) :
  createBookPreviews bs auth = map (preview_of auth) bs.
Proof. reflexivity. Qed.

Lemma createBookPreviews_app (bs1 bs2 : list Book.t) (auth : JSObject) :
  createBookPreviews (bs1 ++ bs2) auth
  = createBookPreviews bs1 auth ++ createBookPreviews bs2 auth.
Proof. unfold createBookPreviews. apply map_app. Qed.

Lemma preview_of_token (auth : JSObject) (b : Book.t) :
  obj_get (attributes (preview_of auth b)) "data-preview" = Some (Book.id b).
Proof. reflexivity. Qed.

End MoreElements.

(** X1: for a tag and attribute names that [createElement] and
    [setAttribute] take as they are (a lower-case letter followed by
    lower-case letters, digits and hyphens) and an object whose keys are
    distinct, as the keys of an object are, the element [createElement]
    returns has that tag, exactly the attributes of the object in their
    order, and the markup it was given. *)
Theorem createElement_attributes (tag : string) (attrs : JSObject) (html : string) :
  valid_name tag = true →
  Forall (λ k, valid_name k = true) (attrs.*1) →
  NoDup (attrs.*1) →
  createElement tag attrs html
  = {| tagName := tag; attributes := attrs; innerHTML := html |}.
Proof.
  intros _ _ Hnd. unfold createElement, Object_entries.
  by rewrite (setAttribute_all attrs []).
Qed.

Lemma createElement_attributes_witness :
  let attrs := [("class", "preview"); ("data-preview", "b1")] in
  valid_name "button" = true ∧
  Forall (λ k, valid_name k = true) (attrs.*1) ∧
  NoDup (attrs.*1) ∧
  createElement "button" attrs "Dune"
  = {| tagName := "button"; attributes := attrs; innerHTML := "Dune" |}.
Proof.
  intros attrs.
  assert (Forall (λ k, valid_name k = true) (attrs.*1)) as Hv
    by (repeat constructor).
  assert (NoDup (attrs.*1)) as Hnd by (apply (bool_decide_unpack _); reflexivity).
  split; [reflexivity|]. split; [exact Hv|]. split; [exact Hnd|].
  exact (createElement_attributes "button" attrs "Dune" eq_refl Hv Hnd).
Defined.

(** X2: for elements that are all distinct from one another and from the
    children the parent has (as freshly created elements are),
    [appendElements] keeps the children of the parent and puts the new
    elements after them in their order; appending two batches one after the
    other is appending them joined, and appending no element changes
    nothing. *)
Theorem appendElements_batches (parent batch1 batch2 : list Element) :
  NoDup (parent ++ batch1 ++ batch2) →
  appendElements parent batch1 = parent ++ batch1 ∧
  appendElements (appendElements parent batch1) batch2
  = appendElements parent (batch1 ++ batch2) ∧
  appendElements parent [] = parent.
Proof.
  intros _. rewrite !appendElements_app. split; [done|].
  split; [by rewrite app_assoc | by rewrite app_nil_r].
Qed.

Lemma appendElements_batches_witness :
  let parent := [option_element "any" "All Genres"] in
  let batch1 := [option_element "g1" "Science Fiction"] in
  let batch2 := [option_element "g2" "Romance"; option_element "g3" "Classics"] in
  NoDup (parent ++ batch1 ++ batch2) ∧
  appendElements parent batch1 = parent ++ batch1 ∧
  appendElements (appendElements parent batch1) batch2
  = appendElements parent (batch1 ++ batch2) ∧
  appendElements parent [] = parent.
Proof.
  intros parent batch1 batch2.
  assert (NoDup (parent ++ batch1 ++ batch2)) as Hnd.
  { unfold parent, batch1, batch2. cbn [app].
    repeat (apply NoDup_cons; split;
            [rewrite ?not_elem_of_cons; repeat split;
             try discriminate; apply not_elem_of_nil|]).
    apply NoDup_nil_2. }
  split; [exact Hnd|].
  exact (appendElements_batches parent batch1 batch2 Hnd).
Defined.


(** ** From a rendered preview to the detail overlay *)

Section MoreLookup.

Lemma find_book_unique d b :
  b ∈ books d → NoDup (Book.id <$> books d) →
  find_book d (Some (Book.id b)) = Some b.
Proof.
  unfold find_book. cbn [strict_equals].
  induction (books d) as [|b' bs IH]; intros Hb Hnd.
  - by apply elem_of_nil in Hb.
  - cbn [Array_find]. rewrite fmap_cons, NoDup_cons in Hnd.
    destruct Hnd as [Hnotin Hnd].
    destruct (String.eqb_spec (Book.id b) (Book.id b')) as [Heq|Hne].
    + apply elem_of_cons in Hb as [->|Hb]; [done|].
      destruct Hnotin. rewrite <- Heq. apply list_elem_of_fmap. eauto.
    + apply elem_of_cons in Hb as [->|Hb]; [done|]. by apply IH.
Qed.

(** The token of a click is the one of the first node of the path that has
    a non-empty one. *)
Lemma active_preview_here node rest x :
  dataset_preview node = Some x → x ≠ EmptyString →
  active_preview (node :: rest) = Some x.
Proof.
  intros Hx Hne. unfold active_preview. cbn [Array_find].
  rewrite Hx. cbn [truthy].
  destruct (String.eqb_spec x EmptyString) as [?|_]; [done|].
  cbn [negb mbind option_bind]. exact Hx.
Qed.

Lemma active_preview_node composedPath x :
  active_preview composedPath = Some x →
  ∃ node, node ∈ composedPath ∧ dataset_preview node = Some x ∧ x ≠ EmptyString.
Proof.
  intros Ha. pose proof (active_preview_truthy _ _ Ha) as Hne.
  unfold active_preview in Ha.
  destruct (Array_find _ composedPath) as [node|] eqn:Hf; [|done].
  apply Array_find_Some in Hf as [Hin _]. eauto.
Qed.

(** Nodes without a token are passed over. *)
Lemma active_preview_skip inner composedPath :
  Forall no_preview inner →
  active_preview (inner ++ composedPath) = active_preview composedPath.
Proof.
  unfold active_preview, no_preview.
  induction 1 as [|node inner Hnode _ IH]; [done|].
  cbn [app Array_find]. by rewrite Hnode.
Qed.

End MoreLookup.

(** X3: when the books have distinct ids, a click on or inside the preview
    that [createBookPreviews] made of a book of the data whose id is not
    empty (the path goes through nodes that carry no preview token, such as
    the image and the texts inside the button, and then reaches a node that
    carries the [data-preview] attribute of that preview) fills the detail
    overlay with that very book and opens it, and changes nothing else. *)
Theorem click_rendered_preview d w b inner node rest s :
  b ∈ books d →
  NoDup (Book.id <$> books d) →
  Book.id b ≠ EmptyString →
  Forall no_preview inner →
  dataset_preview node
  = obj_get (attributes (preview_of (authors d) b)) "data-preview" →
  handleBookClick d w (inner ++ node :: rest) s
  = with_document (with_detail_view (detail_of d w b) (document s)) s.
Proof.
  intros Hb Hnd Hne Hinner Hnode. rewrite preview_of_token in Hnode.
  unfold handleBookClick.
  rewrite (active_preview_skip inner _ Hinner).
  rewrite (active_preview_here node rest _ Hnode Hne).
  by rewrite (find_book_unique d b Hb Hnd).
Qed.

Lemma click_rendered_preview_witness :
  let b := book "b4" "Persuasion" "a2" ["g2"] in
  let inner := [ {| dataset := Some [] |}; {| dataset := Some [("preview", EmptyString)] |} ] in
  let node := {| dataset := Some [("preview", "b4")] |} in
  let rest := [ {| dataset := Some [] |}; {| dataset := None |} ] in
  b ∈ books sample_data ∧
  NoDup (Book.id <$> books sample_data) ∧
  Book.id b ≠ EmptyString ∧
  Forall no_preview inner ∧
  dataset_preview node
  = obj_get (attributes (preview_of (authors sample_data) b)) "data-preview" ∧
  handleBookClick sample_data light_window (inner ++ node :: rest) sample_state
  = with_document
      (with_detail_view (detail_of sample_data light_window b)
         (document sample_state)) sample_state.
Proof.
  intros b inner node rest.
  assert (b ∈ books sample_data) as Hb by (do 3 right; left).
  assert (NoDup (Book.id <$> books sample_data)) as Hnd
    by (apply (bool_decide_unpack _); reflexivity).
  assert (Book.id b ≠ EmptyString) as Hne by discriminate.
  assert (Forall no_preview inner) as Hinner by (repeat constructor).
  split; [exact Hb|]. split; [exact Hnd|]. split; [exact Hne|].
  split; [exact Hinner|]. split; [reflexivity|].
  exact (click_rendered_preview sample_data light_window b inner node rest
           sample_state Hb Hnd Hne Hinner eq_refl).
Defined.

(** X4: the click handler changes the state only when some node of the
    path carries a non-empty preview token that is the id of a book of the
    data; a click elsewhere, on a token no book has, or on an empty token,
    does nothing. *)
Theorem handleBookClick_changes_only_on_hit d w composedPath s :
  handleBookClick d w composedPath s ≠ s →
  ∃ node b, node ∈ composedPath ∧ b ∈ books d ∧
            dataset_preview node = Some (Book.id b) ∧ Book.id b ≠ EmptyString.
Proof.
  unfold handleBookClick. intros Hch.
  destruct (active_preview composedPath) as [x|] eqn:Ha.
  - destruct (find_book d (Some x)) as [b|] eqn:Hf; [|done].
    apply find_book_Some in Hf as [Hb <-].
    apply active_preview_node in Ha as (node & Hin & Hnode & Hne).
    eauto 10.
  - by rewrite find_book_undefined in Hch.
Qed.

Lemma handleBookClick_changes_only_on_hit_witness :
  let path := [ {| dataset := Some [] |};
                {| dataset := Some [("preview", "b2")] |};
                {| dataset := None |} ] in
  handleBookClick sample_data light_window path sample_state ≠ sample_state ∧
  ∃ node b, node ∈ path ∧ b ∈ books sample_data ∧
            dataset_preview node = Some (Book.id b) ∧ Book.id b ≠ EmptyString.
Proof.
  intros path.
  assert (handleBookClick sample_data light_window path sample_state
          ≠ sample_state) as Hch.
  { intros H.
    apply (f_equal (λ s, list_active_open (detail_view (document s)))) in H.
    vm_compute in H. discriminate. }
  split; [exact Hch|].
  exact (handleBookClick_changes_only_on_hit sample_data light_window path
           sample_state Hch).
Defined.


(** ** What every run of the script keeps *)

Section Runs.

(** A property that initialization establishes and every listener keeps
    holds after every run. *)
Lemma run_preserves (I : State → Prop) d w evs s :
  (∀ s ev, I s → I (dispatch d w s ev)) → I s → I (run d w evs s).
Proof.
  intros Hstep. revert s. unfold run.
  induction evs as [|ev evs IH]; intros s Hs; cbn [fold_left]; auto.
Qed.

Lemma run_snoc d w evs ev s :
  run d w (evs ++ [ev]) s = dispatch d w (run d w evs s) ev.
Proof. unfold run. by rewrite fold_left_app. Qed.

(** What a listener other than the two of the list leaves alone. *)
Lemma listener_list_frame d w ev s s' :
  listener d w ev s = Normal s' →
  match ev with
  | SearchFormSubmit _ | ListButtonClick => True
  | _ => page s' = page s ∧ matches s' = matches s ∧
         list_view (document s') = list_view (document s)
  end.
Proof.
  destruct ev; cbn [listener]; try done; try (by intros [= <-]).
  intros [= <-]. apply handleBookClick_list.
Qed.

Lemma Array_filter_sublist {A} (cb : A → Completion bool) (l ms : list A) :
  Array_filter cb l = Normal ms → ms `sublist_of` l.
Proof.
  revert ms. induction l as [|x l IH]; intros ms; cbn [Array_filter].
  - intros [= <-]. done.
  - destruct (cb x) as [keep|e]; [|done]. cbn.
    destruct (Array_filter cb l) as [rest|e]; [|done]. cbn.
    intros [= <-]. destruct keep.
    + apply sublist_skip. by apply IH.
    + apply sublist_cons. by apply IH.
Qed.

Lemma shown_invariant_initialize d w doc :
  0 ≤ BOOKS_PER_PAGE d →
  list_items (list_view doc) = [] →
  shown_invariant d (initialize d w doc).
Proof.
  intros Hb Hdoc. unfold shown_invariant, initialize.
  cbn [page matches document applyTheme with_settings_view with_search_view
       with_list_view list_view list_items search_view].
  split; [lia|].
  rewrite Hdoc, appendElements_app, app_nil_l, Array_slice_take_drop by lia.
  by rewrite Z.sub_0_r, Z.mul_1_l.
Qed.

Lemma shown_invariant_show_matches d ms s :
  0 ≤ BOOKS_PER_PAGE d → shown_invariant d (show_matches d ms s).
Proof.
  intros Hb. unfold shown_invariant.
  rewrite show_matches_items, show_matches_page, show_matches_matches.
  split; [lia|]. rewrite Array_slice_take_drop by lia.
  by rewrite Z.sub_0_r, Z.mul_1_l.
Qed.

Lemma shown_invariant_handleShowMore d s :
  0 ≤ BOOKS_PER_PAGE d →
  shown_invariant d s → shown_invariant d (handleShowMore d s).
Proof.
  intros Hb [Hp Hl]. unfold shown_invariant.
  rewrite handleShowMore_page, handleShowMore_matches. split; [lia|].
  rewrite handleShowMore_items, Hl by lia.
  rewrite <- createBookPreviews_app, take_take_drop. do 2 f_equal. nia.
Qed.

Lemma shown_invariant_dispatch d w s ev :
  0 ≤ BOOKS_PER_PAGE d →
  shown_invariant d s → shown_invariant d (dispatch d w s ev).
Proof.
  intros Hb Hs. unfold dispatch.
  destruct (listener d w ev s) as [s'|e] eqn:Hl; [|done].
  pose proof (listener_list_frame d w ev s s' Hl) as Hframe.
  destruct ev; cbn [listener] in Hl;
    try (destruct Hframe as (Hp & Hm & Hv); unfold shown_invariant in *;
         by rewrite Hp, Hm, Hv).
  - apply handleSearch_inv in Hl as (ms & _ & ->).
    by apply shown_invariant_show_matches.
  - injection Hl as <-. by apply shown_invariant_handleShowMore.
Qed.

End Runs.

(** X5: when the page size is positive and the list is empty before the
    script runs, then after initialization and after every listener that
    follows, the list holds exactly the previews of the first
    page * BOOKS_PER_PAGE books of the match set, in the order of the match
    set. *)
Theorem shown_previews_invariant d w doc evs :
  0 < BOOKS_PER_PAGE d →
  list_items (list_view doc) = [] →
  let s := run d w evs (initialize d w doc) in
  list_items (list_view (document s))
  = createBookPreviews
      (take (Z.to_nat (page s * BOOKS_PER_PAGE d)) (matches s)) (authors d).
Proof.
  intros Hb Hdoc s.
  assert (shown_invariant d s) as [_ H]; [|exact H].
  apply run_preserves.
  - intros s0 ev. apply shown_invariant_dispatch. lia.
  - apply shown_invariant_initialize; [lia | done].
Qed.

Lemma shown_previews_invariant_witness :
  let evs := [ListButtonClick;
              SearchFormSubmit (search_form "e" "any" "any");
              ListItemsClick [ {| dataset := Some [("preview", "b2")] |} ];
              ListButtonClick] in
  let s := run sample_data light_window evs
             (initialize sample_data light_window blank_document) in
  0 < BOOKS_PER_PAGE sample_data ∧
  list_items (list_view blank_document) = [] ∧
  list_items (list_view (document s))
  = createBookPreviews
      (take (Z.to_nat (page s * BOOKS_PER_PAGE sample_data)) (matches s))
      (authors sample_data).
Proof.
  intros evs s.
  assert (0 < BOOKS_PER_PAGE sample_data) as Hb by reflexivity.
  split; [exact Hb|]. split; [reflexivity|].
  exact (shown_previews_invariant sample_data light_window blank_document evs
           Hb eq_refl).
Defined.

(** X6: after initialization and after every listener that follows, the
    match set is a subsequence of the books of the data, whatever the search
    forms held, a form with fields missing included. *)
Theorem matches_sublist_invariant d w doc evs :
  matches (run d w evs (initialize d w doc)) `sublist_of` books d.
Proof.
  apply (run_preserves (λ s, matches s `sublist_of` books d)); [|done].
  intros s ev Hs. unfold dispatch.
  destruct (listener d w ev s) as [s'|e] eqn:Hl; [|done].
  pose proof (listener_list_frame d w ev s s' Hl) as Hframe.
  destruct ev; cbn [listener] in Hl;
    try (destruct Hframe as (_ & -> & _); done).
  - apply handleSearch_inv in Hl as (ms & Hms & ->).
    rewrite show_matches_matches. by apply Array_filter_sublist in Hms.
  - by injection Hl as <-.
Qed.

(** X7: a listener other than the search submission leaves the match set
    as it is, and a listener other than the search submission and the
    show-more click leaves the page cursor and the list, its button and its
    message as they are. *)
Theorem listeners_frame d w s ev :
  match ev with
  | SearchFormSubmit _ => True
  | ListButtonClick => matches (dispatch d w s ev) = matches s
  | _ => page (dispatch d w s ev) = page s ∧
         matches (dispatch d w s ev) = matches s ∧
         list_view (document (dispatch d w s ev)) = list_view (document s)
  end.
Proof.
  unfold dispatch.
  destruct (listener d w ev s) as [s'|e] eqn:Hl.
  - pose proof (listener_list_frame d w ev s s' Hl) as Hframe.
    destruct ev; try done. cbn [listener] in Hl. by injection Hl as <-.
  - by destruct ev.
Qed.


(** ** Shown, remaining and total *)

Section Accounts.

(** When the list, the cursor and the button agree, the label reports what
    is not shown yet, and a disabled button means all is shown. *)
Lemma button_accounts d s :
  0 ≤ BOOKS_PER_PAGE d →
  cursor_invariant d s → shown_invariant d s →
  list_button_disabled (list_view (document s))
  = (Array_length (matches s) <=? page s * BOOKS_PER_PAGE d) →
  list_button_innerHTML (list_view (document s))
  = list_button_html
      (Math_max (Array_length (matches s) - page s * BOOKS_PER_PAGE d) 0) →
  reports_remaining s (Array_length (matches s) - rendered_count s) ∧
  (is_exhausted s = true ↔ Array_length (matches s) - rendered_count s = 0) ∧
  (is_exhausted s = true →
   list_items (list_view (document s))
   = createBookPreviews (matches s) (authors d)).
Proof.
  intros Hb [Hp Hc] [_ Hl] Hdis Hlabel.
  unfold reports_remaining, is_exhausted. rewrite Hlabel, Hdis, Hc.
  unfold Math_max. split; [f_equal; lia|]. rewrite Z.leb_le.
  split; [lia|]. intros Hle. rewrite Hl, take_ge; [done|].
  unfold Array_length in Hle. lia.
Qed.

End Accounts.

(** X8: when the page size is positive and the list is empty before the
    script runs, then after a show-more click at any point of a run the
    label of the button reports the number of matches that are not shown,
    the button is disabled exactly when that number is 0, and with a
    disabled button the list holds the previews of the whole match set. *)
Theorem show_more_accounts d w doc evs :
  0 < BOOKS_PER_PAGE d →
  list_items (list_view doc) = [] →
  let s' := run d w (evs ++ [ListButtonClick]) (initialize d w doc) in
  reports_remaining s' (Array_length (matches s') - rendered_count s') ∧
  (is_exhausted s' = true ↔ Array_length (matches s') - rendered_count s' = 0) ∧
  (is_exhausted s' = true →
   list_items (list_view (document s'))
   = createBookPreviews (matches s') (authors d)).
Proof.
  intros Hb Hdoc s'. unfold s'. rewrite run_snoc.
  set (s := run d w evs (initialize d w doc)).
  assert (cursor_invariant d s) as Hc.
  { apply cursor_invariant_run; [lia|].
    apply cursor_invariant_initialize; [lia | done]. }
  assert (shown_invariant d s) as Hs.
  { apply run_preserves.
    - intros s0 ev. apply shown_invariant_dispatch. lia.
    - apply shown_invariant_initialize; [lia | done]. }
  change (dispatch d w s ListButtonClick) with (handleShowMore d s).
  apply button_accounts; [lia | | | done | done].
  - apply cursor_invariant_handleShowMore; [lia | done].
  - apply shown_invariant_handleShowMore; [lia | done].
Qed.

Lemma show_more_accounts_witness :
  let evs := [SearchFormSubmit (search_form "dune" "any" "any")] in
  let s' := run sample_data light_window (evs ++ [ListButtonClick])
              (initialize sample_data light_window blank_document) in
  0 < BOOKS_PER_PAGE sample_data ∧
  list_items (list_view blank_document) = [] ∧
  reports_remaining s' (Array_length (matches s') - rendered_count s') ∧
  (is_exhausted s' = true ↔ Array_length (matches s') - rendered_count s' = 0) ∧
  (is_exhausted s' = true →
   list_items (list_view (document s'))
   = createBookPreviews (matches s') (authors sample_data)).
Proof.
  intros evs s'.
  assert (0 < BOOKS_PER_PAGE sample_data) as Hb by reflexivity.
  split; [exact Hb|]. split; [reflexivity|].
  exact (show_more_accounts sample_data light_window blank_document evs
           Hb eq_refl).
Defined.

(** X9: with a positive page size, after a search that returns the label
    of the button reports the number of matches that are not shown, the
    button is disabled exactly when that number is 0, and with a disabled
    button the list holds the previews of the whole match set. *)
Theorem search_accounts d formData s s' :
  0 < BOOKS_PER_PAGE d →
  handleSearch d formData s = Normal s' →
  reports_remaining s' (Array_length (matches s') - rendered_count s') ∧
  (is_exhausted s' = true ↔ Array_length (matches s') - rendered_count s' = 0) ∧
  (is_exhausted s' = true →
   list_items (list_view (document s'))
   = createBookPreviews (matches s') (authors d)).
Proof.
  intros Hb (ms & _ & ->)%handleSearch_inv.
  apply button_accounts; [lia | | | |].
  - apply cursor_invariant_show_matches. lia.
  - apply shown_invariant_show_matches. lia.
  - rewrite show_matches_page, show_matches_matches, Z.mul_1_l. done.
  - rewrite show_matches_page, show_matches_matches, Z.mul_1_l. done.
Qed.

Lemma search_accounts_witness :
  let formData := search_form "e" "any" "a2" in
  let s' := show_matches sample_data
              (filter (criteria_hold "e" "any" "a2") sample_books)
              sample_state in
  0 < BOOKS_PER_PAGE sample_data ∧
  handleSearch sample_data formData sample_state = Normal s' ∧
  reports_remaining s' (Array_length (matches s') - rendered_count s') ∧
  (is_exhausted s' = true ↔ Array_length (matches s') - rendered_count s' = 0) ∧
  (is_exhausted s' = true →
   list_items (list_view (document s'))
   = createBookPreviews (matches s') (authors sample_data)).
Proof.
  intros formData s'.
  assert (0 < BOOKS_PER_PAGE sample_data) as Hb by reflexivity.
  assert (handleSearch sample_data formData sample_state = Normal s') as Hs
    by (vm_compute; reflexivity).
  split; [exact Hb|]. split; [exact Hs|].
  exact (search_accounts sample_data formData sample_state s' Hb Hs).
Defined.


(** ** More on the search *)

Section MoreSearch.

Lemma string_app_assoc (a b c : string) : (a +:+ b) +:+ c = a +:+ b +:+ c.
Proof.
  induction a as [|x a IH]; [done|].
  change (String x ((a +:+ b) +:+ c) = String x (a +:+ b +:+ c)).
  by rewrite IH.
Qed.

Lemma contains_trans (a b c : string) :
  contains a b → contains b c → contains a c.
Proof.
  intros (p & q & ->) (p' & q' & ->).
  exists (p +:+ p'), (q' +:+ q). by rewrite !string_app_assoc.
Qed.




Lemma filter_all {A} (P : A → Prop) `{!∀ x, Decision (P x)} (l : list A) :
  (∀ x, P x) → filter P l = l.
Proof.
  intros HP. induction l as [|x l IH]; [done|].
  by rewrite filter_cons_True, IH.
Qed.

Lemma filter_none {A} (P : A → Prop) `{!∀ x, Decision (P x)} (l : list A) :
  (∀ x, ¬ P x) → filter P l = [].
Proof.
  intros HP. induction l as [|x l IH]; [done|].
  by rewrite filter_cons_False.
Qed.

(** The search on a form with the three fields. *)
Lemma handleSearch_form d title genre author s :
  handleSearch d (search_form title genre author) s
  = Normal (show_matches d (filter (criteria_hold title genre author) (books d)) s).
Proof.
  rewrite (handleSearch_Normal d _ s (criteria_test title genre author))
    by (intros b; by apply search_callback_fields).
  do 2 f_equal. apply list_filter_iff. intros b. apply criteria_test_spec.
Qed.

Lemma classList_add_idem (c : string) (l : list string) :
  classList_add c (classList_add c l) = classList_add c l.
Proof.
  pose proof (classList_contains_add c l) as H.
  unfold classList_contains in H. unfold classList_add at 1. by rewrite H.
Qed.

Lemma classList_remove_idem (c : string) (l : list string) :
  classList_remove c (classList_remove c l) = classList_remove c l.
Proof.
  unfold classList_remove. induction l as [|x l IH]; [done|].
  cbn [List.filter]. destruct (String.eqb c x) eqn:Hx; cbn [negb]; [done|].
  cbn [List.filter]. by rewrite Hx, IH.
Qed.

Lemma show_matches_idem d ms s :
  show_matches d ms (show_matches d ms s) = show_matches d ms s.
Proof.
  unfold show_matches.
  cbn [document list_view list_message_classList search_view settings_view
       detail_view with_search_overlay search_title_focus search_genres
       search_authors].
  destruct (Array_length ms <? 1).
  - by rewrite classList_add_idem.
  - by rewrite classList_remove_idem.
Qed.




End MoreSearch.

(** X10: submitting the same search form twice in a row leaves the state
    the first submission produced, whatever the form holds (a form that
    makes the handler throw included). *)
Theorem search_idempotent d w s formData :
  let ev := SearchFormSubmit formData in
  dispatch d w (dispatch d w s ev) ev = dispatch d w s ev.
Proof.
  intros ev. unfold dispatch, ev. cbn [listener].
  destruct (handleSearch d formData s) as [s1|e] eqn:H1.
  - apply handleSearch_inv in H1 as (ms & Hms & ->).
    unfold handleSearch. rewrite Hms. cbn. apply show_matches_idem.
  - by rewrite H1.
Qed.

(** X11: the search handler throws, a TypeError, exactly when the form has
    no title field and the data has at least one book; with no book at all
    the callback never runs and the handler returns. *)
Theorem handleSearch_throws_iff d formData s :
  (∃ e, handleSearch d formData s = Throw e) ↔
  obj_get (Object_fromEntries formData) "title" = None ∧ books d ≠ [].
Proof.
  split.
  - intros [e He].
    destruct (obj_get (Object_fromEntries formData) "title") as [t|] eqn:Ht.
    + rewrite (handleSearch_Normal d formData s _
                 (λ b, search_callback_title _ _ b Ht)) in He. done.
    + split; [done|]. intros Hnil. unfold handleSearch in He.
      rewrite Hnil in He. done.
  - intros [Ht Hne]. exists TypeError. unfold handleSearch.
    destruct (books d) as [|b bs]; [done|].
    rewrite (Array_filter_Throw _ TypeError); [done|].
    intros y. by apply search_callback_no_title.
Qed.

(** X12: when the form has a title field and lacks the genre field or the
    author field, the handler returns with an empty match set and shows the
    no-results message, whatever the title. *)
Theorem search_missing_field d formData s title :
  obj_get (Object_fromEntries formData) "title" = Some title →
  obj_get (Object_fromEntries formData) "genre" = None ∨
  obj_get (Object_fromEntries formData) "author" = None →
  ∃ s', handleSearch d formData s = Normal s' ∧
        matches s' = [] ∧ is_empty s' = true ∧ rendered_count s' = 0.
Proof.
  intros Ht Hmiss.
  rewrite (handleSearch_Normal d formData s _
             (λ b, search_callback_title _ _ b Ht)).
  eexists. split; [done|]. rewrite filter_none.
  - split; [done|]. split; [apply classList_contains_add|].
    unfold rendered_count. rewrite show_matches_items.
    unfold Array_slice. by rewrite drop_nil, take_nil.
  - intros b. destruct Hmiss as [-> | ->]; cbn [strict_equals Array_includes orb].
    + by rewrite andb_false_l.
    + by rewrite andb_false_r.
Qed.

Lemma search_missing_field_witness :
  let formData := [("title", "dune"); ("author", "any")] in
  obj_get (Object_fromEntries formData) "title" = Some "dune" ∧
  (obj_get (Object_fromEntries formData) "genre" = None ∨
   obj_get (Object_fromEntries formData) "author" = None) ∧
  ∃ s', handleSearch sample_data formData sample_state = Normal s' ∧
        matches s' = [] ∧ is_empty s' = true ∧ rendered_count s' = 0.
Proof.
  intros formData.
  split; [reflexivity|]. split; [left; reflexivity|].
  exact (search_missing_field sample_data formData sample_state "dune" eq_refl
           (or_introl eq_refl)).
Defined.

(** X13: a search with a blank title (empty or whitespace only), any genre
    and any author selects every book of the data, in order. *)
Theorem search_no_criteria d title s :
  blank title = true →
  handleSearch d (search_form title "any" "any") s
  = Normal (show_matches d (books d) s).
Proof.
  intros Hblank. rewrite handleSearch_form, filter_all; [done|].
  intros b. split; [by left|]. split; [|by left].
  left. by apply trim_empty.
Qed.

Lemma search_no_criteria_witness :
  blank "  " = true ∧
  handleSearch sample_data (search_form "  " "any" "any") sample_state
  = Normal (show_matches sample_data (books sample_data) sample_state).
Proof.
  split; [reflexivity|].
  exact (search_no_criteria sample_data "  " sample_state eq_refl).
Defined.

(** X14: loosening the criteria never loses a match, whatever the
    engine's lowercasing and trimming are.  When the second title lowercased
    occurs in the first title lowercased, the second title is empty after
    trimming whenever the first is, the second genre is "any" or the first
    genre, and the second author is "any" or the first author, the match
    set of the first search is a subsequence of the match set of the
    second. *)
Theorem search_narrowing e d s1 s2 title1 genre1 author1 title2 genre2 author2 :
  contains (engine_toLowerCase e title1) (engine_toLowerCase e title2) →
  (engine_trim e title1 = EmptyString → engine_trim e title2 = EmptyString) →
  genre2 = "any" ∨ genre2 = genre1 →
  author2 = "any" ∨ author2 = author1 →
  ∃ s1' s2',
    handleSearch_with e d (search_form title1 genre1 author1) s1 = Normal s1' ∧
    handleSearch_with e d (search_form title2 genre2 author2) s2 = Normal s2' ∧
    matches s1' `sublist_of` matches s2'.
Proof.
  intros Ht Hblank Hg Ha. rewrite !handleSearch_with_form.
  eexists _, _. split; [done|]. split; [done|].
  rewrite !show_matches_matches.
  rewrite <- (list_filter_filter_l (criteria_hold_with e title1 genre1 author1)
                (criteria_hold_with e title2 genre2 author2)).
  - apply sublist_filter.
  - intros b (Hg1 & Ht1 & Ha1). split; [|split].
    + destruct Hg as [->| ->]; [by left | done].
    + destruct Ht1 as [Ht1|Ht1]; [left; by apply Hblank|].
      right. by apply (contains_trans _ _ _ Ht1).
    + destruct Ha as [->| ->]; [by left | done].
Qed.

Lemma search_narrowing_witness :
  contains (engine_toLowerCase ascii_engine "Dune M")
    (engine_toLowerCase ascii_engine "dune") ∧
  (engine_trim ascii_engine "Dune M" = EmptyString →
   engine_trim ascii_engine "dune" = EmptyString) ∧
  ("any" = "any" ∨ "any" = "g1") ∧
  ("a1" = "any" ∨ "a1" = "a1") ∧
  ∃ s1' s2',
    handleSearch_with ascii_engine sample_data
      (search_form "Dune M" "g1" "a1") sample_state = Normal s1' ∧
    handleSearch_with ascii_engine sample_data
      (search_form "dune" "any" "a1") sample_state = Normal s2' ∧
    matches s1' `sublist_of` matches s2'.
Proof.
  assert (contains (engine_toLowerCase ascii_engine "Dune M")
            (engine_toLowerCase ascii_engine "dune")) as Ht
    by (apply includes_spec; reflexivity).
  assert (engine_trim ascii_engine "Dune M" = EmptyString →
          engine_trim ascii_engine "dune" = EmptyString) as Hblank
    by discriminate.
  split; [exact Ht|]. split; [exact Hblank|].
  split; [left; reflexivity|]. split; [right; reflexivity|].
  exact (search_narrowing ascii_engine sample_data sample_state sample_state
           "Dune M" "g1" "a1" "dune" "any" "a1" Ht Hblank
           (or_introl eq_refl) (or_intror eq_refl)).
Defined.




(** ** The theme and the dropdowns over a run *)

Section MoreRuns.

Lemma themed_applyTheme w doc : themed w (settings_view (applyTheme w doc)).
Proof.
  rewrite applyTheme_settings. unfold themed, environment_theme.
  cbn [settings_theme_value color_dark color_light].
  by destruct (prefers_dark w).
Qed.

Lemma themed_dispatch d w s ev :
  themed w (settings_view (document s)) →
  themed w (settings_view (document (dispatch d w s ev))).
Proof.
  intros Hs. unfold dispatch.
  destruct (listener d w ev s) as [s'|e] eqn:Hl; [|done].
  destruct ev; cbn [listener] in Hl; try (by injection Hl as <-).
  - injection Hl as <-. unfold handleSettings.
    cbn [document with_document settings_view with_settings_view].
    pose proof (themed_applyTheme w
                  (with_settings_view
                     (with_settings_theme
                        (obj_get (Object_fromEntries formData) "theme")
                        (settings_view (document s))) (document s))) as H.
    exact H.
  - by apply handleSearch_inv in Hl as (ms & _ & ->).
  - injection Hl as <-. unfold handleBookClick.
    by destruct (find_book _ _).
Qed.

(** No listener touches the two dropdowns. *)
Lemma dropdowns_dispatch d w s ev :
  search_genres (search_view (document (dispatch d w s ev)))
  = search_genres (search_view (document s)) ∧
  search_authors (search_view (document (dispatch d w s ev)))
  = search_authors (search_view (document s)).
Proof.
  unfold dispatch.
  destruct (listener d w ev s) as [s'|e] eqn:Hl; [|done].
  destruct ev; cbn [listener] in Hl; try (by injection Hl as <-).
  - by apply handleSearch_inv in Hl as (ms & _ & ->).
  - injection Hl as <-. unfold handleBookClick.
    by destruct (find_book _ _).
Qed.

End MoreRuns.

(** X16: after initialization and after every listener that follows, a
    settings submission included, the applied colours and the value of the
    theme control are those of the theme the environment asks for: night
    when [matchMedia] exists and reports a dark colour scheme, day
    otherwise. *)
Theorem theme_follows_environment d w doc evs :
  let s := run d w evs (initialize d w doc) in
  applied_theme s = Some (environment_theme w) ∧
  settings_theme_value (settings_view (document s))
  = Some (Theme_name (environment_theme w)) ∧
  (matchMedia w = None → applied_theme s = Some day).
Proof.
  intros s.
  assert (themed w (settings_view (document s))) as (Hv & Hd & Hl).
  { apply (run_preserves (λ s, themed w (settings_view (document s)))).
    - intros s0 ev. apply themed_dispatch.
    - apply themed_applyTheme. }
  assert (applied_theme s = Some (environment_theme w)) as Ha.
  { unfold applied_theme, environment_theme. rewrite Hd, Hl.
    by destruct (prefers_dark w). }
  split; [exact Ha|]. split; [exact Hv|].
  intros Hmm. rewrite Ha. unfold environment_theme, prefers_dark.
  by rewrite Hmm.
Qed.

(** X17: initialization puts into each dropdown, after what the markup had
    there, the default option and one option per genre (per author) of the
    data in the order of the mapping, and no listener changes the dropdowns
    afterwards. *)
Theorem dropdowns_invariant d w doc evs :
  let s := run d w evs (initialize d w doc) in
  search_genres (search_view (document s))
  = search_genres (search_view doc) ++
    option_element "any" "All Genres" ::
    map (λ entry, option_element entry.1 entry.2) (Object_entries (genres d)) ∧
  search_authors (search_view (document s))
  = search_authors (search_view doc) ++
    option_element "any" "All Authors" ::
    map (λ entry, option_element entry.1 entry.2) (Object_entries (authors d)).
Proof.
  intros s.
  assert (search_genres (search_view (document s))
          = search_genres (search_view (document (initialize d w doc))) ∧
          search_authors (search_view (document s))
          = search_authors (search_view (document (initialize d w doc))))
    as [-> ->].
  { apply (run_preserves
             (λ s, search_genres (search_view (document s))
                   = search_genres (search_view (document (initialize d w doc))) ∧
                   search_authors (search_view (document s))
                   = search_authors (search_view (document (initialize d w doc)))));
      [|done].
    intros s0 ev [Hg Ha].
    destruct (dropdowns_dispatch d w s0 ev) as [-> ->]. done. }
  unfold initialize, createOptions.
  cbn [document applyTheme with_settings_view with_search_view with_list_view
       search_view search_genres search_authors].
  rewrite !appendElements_app.
  rewrite !(fold_left_push (λ kv, createElement "option" [("value", kv.1)] kv.2)).
  done.
Qed.
